(** * Liam robot lawn mower: the sketch's control loop, embedded in Rocq

    The development embeds [Liam/Liam.ino]: the global variables and the
    function-static variables of the sketch form the machine state, every call
    into a collaborator object ([Mower], [Battery], [Sensor], [Compass],
    [Display], [Error], [Clock], [SetupAndDebug], [Serial]) or into the Arduino
    core ([millis], [delay], [random]) is an event of a trace, and the answers
    of the collaborators come from an environment.  The handlers of the sketch
    are programs of a small state-and-trace monad; the theorems are about the
    traces and the final machine states of [setup] and [loop]. *)

From Stdlib Require Import ZArith List String Bool Lia.
Import ListNotations.
Local Open Scope Z_scope.

(** ** Data model *)

(** The values of the global [int state] (the constants are declared in
    Definition.h). *)
Inductive MowerState :=
| IDLE | MOWING | LAUNCHING | DOCKING | LOOKING_FOR_BWF | CHARGING | SETUP_DEBUG.

Definition MowerState_eqb (a b : MowerState) : bool :=
  match a, b with
  | IDLE, IDLE | MOWING, MOWING | LAUNCHING, LAUNCHING | DOCKING, DOCKING
  | LOOKING_FOR_BWF, LOOKING_FOR_BWF | CHARGING, CHARGING
  | SETUP_DEBUG, SETUP_DEBUG => true
  | _, _ => false
  end.

(** [ORIENTATION::LEFT] and [ORIENTATION::RIGHT], the two indices of
    [sensorOutside]. *)
Inductive ORIENTATION := LEFT | RIGHT.

(** The integer value of an orientation: coil 0 is the left one, coil 1 the
    right one (the numbering of the drawing at the top of the sketch). *)
Definition coil (o : ORIENTATION) : Z :=
  match o with LEFT => 0 | RIGHT => 1 end.

(** [bool sensorOutside[2]]. *)
Record SensorArray := mkSensorArray { at_left : bool; at_right : bool }.

Definition sensor_get (a : SensorArray) (o : ORIENTATION) : bool :=
  match o with LEFT => at_left a | RIGHT => at_right a end.

Definition sensor_set (a : SensorArray) (o : ORIENTATION) (b : bool) : SensorArray :=
  match o with
  | LEFT => mkSensorArray b (at_right a)
  | RIGHT => mkSensorArray (at_left a) b
  end.

(** The globals of the sketch and the [static] locals of its functions.
    A [long] that holds a [millis()] reading is kept as the 32-bit pattern of
    that reading, a number in [0, 2^32): the sketch only ever subtracts it
    from a later [millis()], in [unsigned long] arithmetic. *)
Record Machine := mkMachine {
  state : MowerState;               (* int state *)
  time_at_turning : Z;              (* long time_at_turning *)
  sensorOutside : SensorArray;      (* bool sensorOutside[2] *)
  collisionCount : Z;               (* doDocking: static int, see [int_incr] *)
  lastCollision : Z;                (* doDocking: static long *)
  lastAllOutsideCheck : Z;          (* doDocking: static long *)
  lastOutside : Z;                  (* doDocking: static long *)
  lastContact : Z;                  (* doCharging: static long *)
  lastDisplayUpdate : Z             (* loop: static long *)
}.

Definition set_state (s : MowerState) (m : Machine) : Machine :=
  mkMachine s (time_at_turning m) (sensorOutside m) (collisionCount m)
    (lastCollision m) (lastAllOutsideCheck m) (lastOutside m) (lastContact m)
    (lastDisplayUpdate m).

Definition set_time_at_turning (t : Z) (m : Machine) : Machine :=
  mkMachine (state m) t (sensorOutside m) (collisionCount m)
    (lastCollision m) (lastAllOutsideCheck m) (lastOutside m) (lastContact m)
    (lastDisplayUpdate m).

Definition set_sensorOutside (o : ORIENTATION) (b : bool) (m : Machine) : Machine :=
  mkMachine (state m) (time_at_turning m) (sensor_set (sensorOutside m) o b)
    (collisionCount m) (lastCollision m) (lastAllOutsideCheck m) (lastOutside m)
    (lastContact m) (lastDisplayUpdate m).

Definition set_collisionCount (c : Z) (m : Machine) : Machine :=
  mkMachine (state m) (time_at_turning m) (sensorOutside m) c
    (lastCollision m) (lastAllOutsideCheck m) (lastOutside m) (lastContact m)
    (lastDisplayUpdate m).

Definition set_lastCollision (t : Z) (m : Machine) : Machine :=
  mkMachine (state m) (time_at_turning m) (sensorOutside m) (collisionCount m)
    t (lastAllOutsideCheck m) (lastOutside m) (lastContact m)
    (lastDisplayUpdate m).

Definition set_lastAllOutsideCheck (t : Z) (m : Machine) : Machine :=
  mkMachine (state m) (time_at_turning m) (sensorOutside m) (collisionCount m)
    (lastCollision m) t (lastOutside m) (lastContact m) (lastDisplayUpdate m).

Definition set_lastOutside (t : Z) (m : Machine) : Machine :=
  mkMachine (state m) (time_at_turning m) (sensorOutside m) (collisionCount m)
    (lastCollision m) (lastAllOutsideCheck m) t (lastContact m)
    (lastDisplayUpdate m).

Definition set_lastContact (t : Z) (m : Machine) : Machine :=
  mkMachine (state m) (time_at_turning m) (sensorOutside m) (collisionCount m)
    (lastCollision m) (lastAllOutsideCheck m) (lastOutside m) t
    (lastDisplayUpdate m).

Definition set_lastDisplayUpdate (t : Z) (m : Machine) : Machine :=
  mkMachine (state m) (time_at_turning m) (sensorOutside m) (collisionCount m)
    (lastCollision m) (lastAllOutsideCheck m) (lastOutside m) (lastContact m) t.

(** The macros of Definition.h that the sketch uses.  The header is not among
    the sources, so its values are parameters of the model.  The two clock
    macros are spelled differently in the sketch: [__RTC_CLOCK__] guards the
    declaration of [Clock], [__RTC__CLOCK__] guards its use in [doCharging]. *)
Record Definition_h := mkDefinition_h {
  FULLSPEED : Z;
  SLOWSPEED : Z;
  ACCELERATION_DURATION : Z;
  TURN_INTERVAL : Z;
  ERROR_TILT : Z;
  ERROR_LIFT : Z;
  VERSION_STRING : string;
  BUILD_DATE_TIME : string;         (* __DATE__ " " __TIME__ *)
  has_motion_sensor : bool;         (* __MS9150__ || __MS5883L__ || __ADXL345__ *)
  has_Lift_Sensor : bool;           (* __Lift_Sensor__ *)
  has_RTC_CLOCK : bool;             (* __RTC_CLOCK__, line 116 *)
  has_RTC__CLOCK : bool             (* __RTC__CLOCK__, line 428 *)
}.

(** Every call that leaves the sketch.  A call that returns a value carries
    the value it returned. *)
Inductive Event :=
(* Arduino core *)
| EvMillis (t : Z)
| EvRandom (lo hi r : Z)
| EvDelay (ms : Z)
| EvAttachInterrupt
(* Serial *)
| EvSerialBegin (baud : Z)
| EvSerialPrint (s : string)
| EvSerialPrintln (s : string)
| EvSerialPrintNum (z : Z)
| EvSerialPrintlnNum (z : Z)
(* SetupAndDebug *)
| EvTryEnterSetupDebugMode (cur new : MowerState)
(* Defaults *)
| EvDefinePinsInputOutput
| EvSetDefaultLevels
(* Display *)
| EvDisplayInitialize
| EvDisplayClear
| EvDisplayPrint (s : string)
| EvDisplayUpdate
(* Sensor *)
| EvSensorSelect (i : Z)
| EvIsOutOfBounds (b : bool)
| EvIsInside (b : bool)
| EvIsOutside (b : bool)
(* Battery *)
| EvResetVoltage
| EvUpdateVoltage
| EvIsBeingCharged (b : bool)
| EvMustCharge (b : bool)
| EvIsFullyCharged (b : bool)
(* Clock *)
| EvTimeToCut (b : bool)
(* Compass *)
| EvCompassInitialize
| EvSetNewTargetHeading
| EvUpdateHeading
(* Error *)
| EvErrorFlag (code : Z)
(* CutterMotor *)
| EvCutterInitialize
(* Mower *)
| EvHasFlipped (b : bool)
| EvIsLifted (b : bool)
| EvWheelsAreOverloaded (b : bool)
| EvStopCutter
| EvStartCutter
| EvStop
| EvRunBackward (speed : Z)
| EvRunForward (speed : Z)
| EvRunForwardOverTime (startSpeed endSpeed duration : Z)
| EvTurnRight (angle : Z)
| EvTurnLeft (angle : Z)
| EvTurnToReleaseRight (angle err : Z)
| EvTurnToReleaseLeft (angle err : Z)
| EvGoBackwardUntilInside (err : Z)
| EvTurnIfObstacle
| EvCompensateSpeedToCutterLoad
| EvCompensateSpeedToCompassHeading
| EvAdjustMotorSpeeds
| EvMowerRandomTurn (goBack : bool).

(** The width of [int] on the board: 16 bits on the AVR boards, 32 bits on
    the Arduino 101. *)
Inductive IntWidth := Int16 | Int32.

Definition INT_MAX (w : IntWidth) : Z :=
  match w with Int16 => 32767 | Int32 => 2147483647 end.

(** [c++] on an [int]: the successor, which wraps from [INT_MAX] to
    [INT_MIN] (the overflow is undefined in C++; the boards' compilers make
    it wrap). *)
Definition int_incr (w : IntWidth) (c : Z) : Z :=
  if c =? INT_MAX w then - INT_MAX w - 1 else c + 1.

(** The environment of a run: the configuration, the width of [int], and,
    for every collaborator call that returns a value, the value it returns
    when it is the call
    number [k] of the run (calls are numbered in the order in which the sketch
    makes them). *)
Record Env := mkEnv {
  defs : Definition_h;
  millis_at : nat -> Z;
  random_at : nat -> Z;
  debug_tryEnter : nat -> MowerState -> MowerState;
  sensor_isOutOfBounds : nat -> bool;
  sensor_isInside : nat -> bool;
  sensor_isOutside : nat -> bool;
  battery_isBeingCharged : nat -> bool;
  battery_mustCharge : nat -> bool;
  battery_isFullyCharged : nat -> bool;
  clock_timeToCut : nat -> bool;
  mower_hasFlipped : nat -> bool;
  mower_isLifted : nat -> bool;
  mower_wheelsAreOverloaded : nat -> bool;
  mower_err : nat -> Z;
  int_width : IntWidth
}.

(** ** The monad of the sketch: machine state, call counter and trace *)

Record Res (A : Type) := mkRes {
  val : A;
  mach : Machine;
  tick : nat;
  trace : list Event
}.
Arguments mkRes {A} _ _ _ _.
Arguments val {A} _.
Arguments mach {A} _.
Arguments tick {A} _.
Arguments trace {A} _.

Definition M (A : Type) : Type := nat -> Machine -> Res A.

Definition ret {A} (a : A) : M A := fun n m => mkRes a m n [].

Definition bind {A B} (p : M A) (f : A -> M B) : M B := fun n m =>
  let r := p n m in
  let r' := f (val r) (tick r) (mach r) in
  mkRes (val r') (mach r') (tick r') (trace r ++ trace r').

Declare Scope prog_scope.
Delimit Scope prog_scope with prog.
Notation "x <- c1 ;; c2" := (bind c1 (fun x => c2))
  (at level 61, c1 at next level, right associativity) : prog_scope.
Notation "c1 ;; c2" := (bind c1 (fun _ => c2))
  (at level 61, right associativity) : prog_scope.
Local Open Scope prog_scope.

(** Reading and writing the variables of the sketch. *)
Definition get : M Machine := fun n m => mkRes m m n [].
Definition modify (f : Machine -> Machine) : M unit := fun n m => mkRes tt (f m) n [].

(** A call that returns nothing. *)
Definition command (e : Event) : M unit := fun n m => mkRes tt m (S n) [e].

(** A call that returns a value: the environment's answer at this call. *)
Definition query {A} (ans : nat -> A) (ev : A -> Event) : M A := fun n m =>
  mkRes (ans n) m (S n) [ev (ans n)].

(** The value of an [unsigned long]. *)
Definition wrap32 (z : Z) : Z := z mod 2 ^ 32.

(** [unsigned long] difference of two clock readings. *)
Definition elapsed (now last : Z) : Z := wrap32 (now - last).

(** C++ truth of an [int]. *)
Definition nonzero (z : Z) : bool := negb (z =? 0).

Definition nl : string := String (Ascii.ascii_of_nat 10) EmptyString.

(** ** The sketch *)

Section Sketch.

Variable env : Env.

Local Abbreviation D := (defs env).

(** *** Collaborator calls *)

Definition millis : M Z :=
  query (fun k => wrap32 (millis_at env k)) EvMillis.
Definition random (lo hi : Z) : M Z := query (random_at env) (EvRandom lo hi).
Definition delay (ms : Z) : M unit := command (EvDelay ms).

Definition SetupAndDebug_tryEnterSetupDebugMode (cur : MowerState) : M MowerState :=
  query (fun k => debug_tryEnter env k cur) (EvTryEnterSetupDebugMode cur).

Definition Sensor_select (i : Z) : M unit := command (EvSensorSelect i).
Definition Sensor_isOutOfBounds : M bool := query (sensor_isOutOfBounds env) EvIsOutOfBounds.
Definition Sensor_isInside : M bool := query (sensor_isInside env) EvIsInside.
Definition Sensor_isOutside : M bool := query (sensor_isOutside env) EvIsOutside.

Definition Battery_isBeingCharged : M bool := query (battery_isBeingCharged env) EvIsBeingCharged.
Definition Battery_mustCharge : M bool := query (battery_mustCharge env) EvMustCharge.
Definition Battery_isFullyCharged : M bool := query (battery_isFullyCharged env) EvIsFullyCharged.
Definition Clock_timeToCut : M bool := query (clock_timeToCut env) EvTimeToCut.

Definition Mower_hasFlipped : M bool := query (mower_hasFlipped env) EvHasFlipped.
Definition Mower_isLifted : M bool := query (mower_isLifted env) EvIsLifted.
Definition Mower_wheelsAreOverloaded : M bool :=
  query (mower_wheelsAreOverloaded env) EvWheelsAreOverloaded.
Definition Mower_GoBackwardUntilInside : M Z := query (mower_err env) EvGoBackwardUntilInside.
Definition Mower_turnToReleaseRight (angle : Z) : M Z :=
  query (mower_err env) (EvTurnToReleaseRight angle).
Definition Mower_turnToReleaseLeft (angle : Z) : M Z :=
  query (mower_err env) (EvTurnToReleaseLeft angle).

(** *** setup, lines 130-179 (with DEBUG_ENABLED, which [loop] requires) *)

Definition setup : M unit :=
  command EvCutterInitialize ;;
  command (EvSerialBegin 115200) ;;
  command EvDefinePinsInputOutput ;;
  command EvSetDefaultLevels ;;
  command EvDisplayInitialize ;;
  command EvResetVoltage ;;
  command EvCompassInitialize ;;
  command EvAttachInterrupt ;;
  Sensor_select (coil LEFT) ;;
  command EvDisplayClear ;;
  command (EvDisplayPrint ("--- LIAM ---" ++ nl)) ;;
  command (EvDisplayPrint (VERSION_STRING D ++ nl)) ;;
  command (EvDisplayPrint (BUILD_DATE_TIME D ++ nl)) ;;
  command (EvSerialPrintln "----------------") ;;
  command (EvSerialPrintln "Send D to enter setup and debug mode") ;;
  delay 5000 ;;
  s <- SetupAndDebug_tryEnterSetupDebugMode IDLE ;;
  modify (set_state s) ;;
  command EvDisplayClear ;;
  m <- get ;;
  if MowerState_eqb (state m) SETUP_DEBUG then ret tt
  else
    c <- Battery_isBeingCharged ;;
    if c then
      modify (set_state CHARGING) ;;
      command EvStopCutter
    else
      modify (set_state MOWING).

(** *** randomTurn, lines 183-198 *)

Definition randomTurn (goBack : bool) : M unit :=
  (if goBack then
     command (EvRunBackward (FULLSPEED D)) ;;
     delay 2000
   else ret tt) ;;
  angle <- random 90 160 ;;
  r <- random 0 100 ;;
  (if Z.rem r 2 =? 0 then command (EvTurnRight angle)
   else command (EvTurnLeft angle)) ;;
  t <- millis ;;
  modify (set_time_at_turning t) ;;
  command EvSetNewTargetHeading ;;
  command (EvRunForward (FULLSPEED D)).

(** *** Safety checks, lines 202-226 *)

Definition checkIfFlipped : M unit :=
  if has_motion_sensor D then
    f <- Mower_hasFlipped ;;
    if f then
      command (EvSerialPrint "Mower has flipped ") ;;
      command EvStopCutter ;;
      command EvStop ;;
      command (EvErrorFlag (ERROR_TILT D))
    else ret tt
  else ret tt.

Definition checkIfLifted : M unit :=
  if has_Lift_Sensor D then
    l <- Mower_isLifted ;;
    if l then
      command (EvSerialPrintln "Mower is lifted") ;;
      command EvStopCutter ;;
      command EvStop ;;
      command (EvRunBackward (FULLSPEED D)) ;;
      delay 2000 ;;
      l2 <- Mower_isLifted ;;
      (if l2 then command (EvErrorFlag (ERROR_LIFT D)) else ret tt) ;;
      command (EvMowerRandomTurn false)
    else ret tt
  else ret tt.

(** *** doMowing, lines 230-295 *)

(** Lines 258-261 and 269-272: the turn away from the wire. *)
Definition turnToRelease (i : ORIENTATION) : M Z :=
  match i with
  | LEFT => Mower_turnToReleaseRight 30
  | RIGHT => Mower_turnToReleaseLeft 30
  end.

(** One round of the [for] loop of lines 241-280. *)
Definition mowingSensor (i : ORIENTATION) : M unit :=
  m <- get ;;
  if negb (sensor_get (sensorOutside m) i) then ret tt
  else
    command (EvSerialPrint "Sensor ") ;;
    command (EvSerialPrintNum (coil i)) ;;
    command (EvSerialPrintln " outside") ;;
    Sensor_select (coil i) ;;
    command EvStop ;;
    err <- Mower_GoBackwardUntilInside ;;
    (if nonzero err then command (EvErrorFlag err) else ret tt) ;;
    err <- turnToRelease i ;;
    (if nonzero err then
       command (EvRunBackward (FULLSPEED D)) ;;
       delay 1000 ;;
       command EvStop ;;
       err <- turnToRelease i ;;
       if nonzero err then command (EvErrorFlag err) else ret tt
     else ret tt) ;;
    t <- millis ;;
    modify (set_time_at_turning t) ;;
    command EvSetNewTargetHeading.

Definition doMowing : M unit :=
  mc <- Battery_mustCharge ;;
  if mc then
    modify (set_state LOOKING_FOR_BWF)
  else
    t <- millis ;;
    m <- get ;;
    (if elapsed t (time_at_turning m) >? TURN_INTERVAL D then randomTurn true
     else ret tt) ;;
    mowingSensor LEFT ;;
    mowingSensor RIGHT ;;
    command EvTurnIfObstacle ;;
    command EvStartCutter ;;
    command (EvRunForwardOverTime (SLOWSPEED D) (FULLSPEED D) (ACCELERATION_DURATION D)) ;;
    command EvCompensateSpeedToCutterLoad ;;
    command EvUpdateHeading ;;
    command EvCompensateSpeedToCompassHeading.

(** *** doLaunching, lines 298-308 *)

Definition doLaunching : M unit :=
  command (EvRunBackward (FULLSPEED D)) ;;
  delay 5000 ;;
  command EvStop ;;
  randomTurn false ;;
  command EvResetVoltage ;;
  modify (set_state MOWING).

(** *** doDocking, lines 311-386 *)

(** Lines 361-385: the part of [doDocking] after the collision block. *)
Definition dockingTrack : M unit :=
  t <- millis ;;
  m <- get ;;
  (if elapsed t (lastAllOutsideCheck m) >? 500 then
     (if sensor_get (sensorOutside m) RIGHT then
        command EvStop ;;
        command (EvRunBackward (FULLSPEED D)) ;;
        delay 700 ;;
        command EvStop ;;
        command (EvTurnRight 20) ;;
        command EvStop ;;
        command (EvRunForward (FULLSPEED D))
      else ret tt) ;;
     t <- millis ;;
     modify (set_lastAllOutsideCheck t)
   else ret tt) ;;
  t <- millis ;;
  m <- get ;;
  if elapsed t (lastOutside m) >? 10000 then
    command EvStop ;;
    command (EvTurnLeft 30) ;;
    modify (set_state LOOKING_FOR_BWF)
  else
    Sensor_select (coil LEFT) ;;
    command EvAdjustMotorSpeeds.

(** Lines 329-359: the collision block; it falls through to [dockingTrack]
    unless it returns. *)
Definition dockingCollision : M unit :=
  t <- millis ;;
  m <- get ;;
  (if elapsed t (lastCollision m) >? 10000 then modify (set_collisionCount 0)
   else ret tt) ;;
  m <- get ;;
  modify (set_collisionCount (int_incr (int_width env) (collisionCount m))) ;;
  t <- millis ;;
  modify (set_lastCollision t) ;;
  command (EvSerialPrint "Collision while docking: ") ;;
  m <- get ;;
  command (EvSerialPrintlnNum (collisionCount m)) ;;
  delay 1000 ;;
  c <- Battery_isBeingCharged ;;
  if c then
    command EvStop ;;
    modify (set_state CHARGING)
  else
    command (EvRunBackward (FULLSPEED D)) ;;
    delay 1300 ;;
    m <- get ;;
    if collisionCount m =? 3 then
      command (EvTurnRight 70) ;;
      command EvStop ;;
      modify (set_collisionCount 0) ;;
      t <- millis ;;
      modify (set_lastOutside t) ;;
      command (EvRunForward (FULLSPEED D))
    else dockingTrack.

Definition doDocking : M unit :=
  command EvStopCutter ;;
  m <- get ;;
  (if sensor_get (sensorOutside m) LEFT then
     t <- millis ;;
     modify (set_lastOutside t)
   else ret tt) ;;
  c <- Battery_isBeingCharged ;;
  if c then
    command EvStop ;;
    modify (set_state CHARGING)
  else
    o <- Mower_wheelsAreOverloaded ;;
    if o then dockingCollision else dockingTrack.

(** *** doLookForBWF, lines 388-403 *)

Definition doLookForBWF : M unit :=
  command EvStopCutter ;;
  m <- get ;;
  if sensor_get (sensorOutside m) LEFT then
    modify (set_state DOCKING)
  else
    t <- millis ;;
    m <- get ;;
    (if elapsed t (time_at_turning m) >? TURN_INTERVAL D then randomTurn true
     else ret tt) ;;
    command (EvRunForwardOverTime (SLOWSPEED D) (FULLSPEED D) (ACCELERATION_DURATION D)) ;;
    command EvTurnIfObstacle.

(** *** doCharging, lines 406-438 *)

Definition doCharging : M unit :=
  command EvStop ;;
  command EvStopCutter ;;
  c <- Battery_isBeingCharged ;;
  (if c then
     t <- millis ;;
     modify (set_lastContact t)
   else ret tt) ;;
  t <- millis ;;
  m <- get ;;
  (if elapsed t (lastContact m) >? 20000 then
     command (EvRunBackward (SLOWSPEED D)) ;;
     delay 500 ;;
     command (EvRunForward (SLOWSPEED D)) ;;
     delay 2000 ;;
     command EvStop ;;
     t <- millis ;;
     modify (set_lastContact t)
   else ret tt) ;;
  full <- Battery_isFullyCharged ;;
  go <- (if full then
           if has_RTC__CLOCK D then Clock_timeToCut else ret true
         else ret false) ;;
  if go then
    inside <- Sensor_isInside ;;
    signal <- (if inside then ret true else Sensor_isOutside) ;;
    if signal then modify (set_state LAUNCHING) else ret tt
  else ret tt.

(** *** loop, lines 442-487 *)

(** Lines 449-452, one round of the [for] loop. *)
Definition pollSensor (i : ORIENTATION) : M unit :=
  Sensor_select (coil i) ;;
  b <- Sensor_isOutOfBounds ;;
  modify (set_sensorOutside i b).

(** Lines 447-462: from the reading of [looptime] to the safety checks. *)
Definition loopSense : M Z :=
  looptime <- millis ;;
  pollSensor LEFT ;;
  pollSensor RIGHT ;;
  command EvUpdateVoltage ;;
  t <- millis ;;
  m <- get ;;
  (if elapsed t (lastDisplayUpdate m) >? 5000 then
     command EvDisplayUpdate ;;
     t <- millis ;;
     modify (set_lastDisplayUpdate t)
   else ret tt) ;;
  checkIfFlipped ;;
  checkIfLifted ;;
  ret looptime.

(** Lines 464-483: the [switch] on [state]. *)
Definition dispatch (s : MowerState) : M unit :=
  match s with
  | IDLE => delay 100
  | MOWING => doMowing
  | LAUNCHING => doLaunching
  | DOCKING => doDocking
  | LOOKING_FOR_BWF => doLookForBWF
  | CHARGING => doCharging
  | SETUP_DEBUG => ret tt
  end.

(** Lines 485-486. *)
Definition loopReport (looptime : Z) : M unit :=
  command (EvSerialPrint (nl ++ nl ++ "looptime : ")) ;;
  t <- millis ;;
  command (EvSerialPrintlnNum (elapsed t looptime)).

Definition loop : M unit :=
  m <- get ;;
  s <- SetupAndDebug_tryEnterSetupDebugMode (state m) ;;
  modify (set_state s) ;;
  if MowerState_eqb s SETUP_DEBUG then ret tt
  else
    looptime <- loopSense ;;
    m <- get ;;
    dispatch (state m) ;;
    loopReport looptime.

End Sketch.

Arguments wrap32 : simpl never.
Arguments elapsed : simpl never.

(** ** Properties of programs and classes of events *)

(** Every event that [p] emits, from any start, satisfies [P]. *)
Definition emits {A} (P : Event -> Prop) (p : M A) : Prop :=
  forall n m, Forall P (trace (p n m)).

(** [p] leaves the component [f] of the machine as it found it. *)
Definition keeps {A X} (f : Machine -> X) (p : M A) : Prop :=
  forall n m, f (mach (p n m)) = f m.

(** The events of the loop-time report that ends a cycle (lines 485-486). *)
Definition is_report (e : Event) : bool :=
  match e with
  | EvSerialPrint _ | EvMillis _ | EvSerialPrintlnNum _ => true
  | _ => false
  end.

(** The events of a cycle that come before the reaction to a tilt: the poll
    of the debug collaborator, clock readings, the snapshot of the boundary
    sensors, the battery voltage update, the display update and the tilt
    query itself. *)
Definition is_sensing (e : Event) : bool :=
  match e with
  | EvTryEnterSetupDebugMode _ _ | EvMillis _ | EvSensorSelect _
  | EvIsOutOfBounds _ | EvUpdateVoltage | EvDisplayUpdate | EvHasFlipped _ => true
  | _ => false
  end.


Definition is_isBeingCharged (e : Event) : bool :=
  match e with EvIsBeingCharged _ => true | _ => false end.

Definition is_mustCharge (e : Event) : bool :=
  match e with EvMustCharge _ => true | _ => false end.

Definition is_wheelsAreOverloaded (e : Event) : bool :=
  match e with EvWheelsAreOverloaded _ => true | _ => false end.

Definition is_startCutter (e : Event) : bool :=
  match e with EvStartCutter => true | _ => false end.

(** Commands that set the mower moving forward or start a turn. *)
Definition is_forward_motion (e : Event) : bool :=
  match e with
  | EvRunForward _ | EvRunForwardOverTime _ _ _ | EvTurnRight _ | EvTurnLeft _
  | EvTurnIfObstacle | EvMowerRandomTurn _ | EvAdjustMotorSpeeds => true
  | _ => false
  end.

(** The timers of [doDocking]. *)
Definition dockingTimers (m : Machine) : Z * Z * Z * Z :=
  (collisionCount m, lastCollision m, lastAllOutsideCheck m, lastOutside m).

(** ** Concrete runs *)

(** A configuration of Definition.h, with the four feature macros left open. *)
Definition bench_defs (motion lift rtc rtc_gate : bool) : Definition_h :=
  mkDefinition_h 255 120 2000 15000 1 2 "5.2" "Jan  1 2020 12:00:00"
    motion lift rtc rtc_gate.

(** An environment whose clock starts at [t0] and advances one millisecond
    per call, whose debug collaborator leaves the state as it is, whose
    boundary sensor sees a signal, and whose manoeuvres succeed. *)
Definition bench_env (d : Definition_h) (t0 : Z)
    (outOfBounds charged mustCharge full flipped overloaded : nat -> bool) : Env :=
  mkEnv d (fun k => t0 + Z.of_nat k) (fun _ => 100) (fun _ s => s)
    outOfBounds (fun _ => true) (fun _ => false)
    charged mustCharge full (fun _ => false)
    flipped (fun _ => false) overloaded (fun _ => 0) Int16.

Definition never : nat -> bool := fun _ => false.
Definition always : nat -> bool := fun _ => true.

(** The machine after static initialisation, in state [s]. *)
Definition bench_machine (s : MowerState) : Machine :=
  mkMachine s 0 (mkSensorArray false false) 0 0 0 0 0 0.

(** Both coils outside the wire, nothing else happening. *)
Definition env_outside : Env :=
  bench_env (bench_defs false false false false) 60000
    always never never never never never.

Definition is_escape_turn (e : Event) : bool :=
  match e with EvTurnRight a => a =? 70 | _ => false end.

(** [Q] holds of the result of running [p] from call number [n] and
    machine [m]. *)
Definition wp {A} (p : M A) (n : nat) (m : Machine) (Q : Res A -> Prop) : Prop :=
  Q (p n m).

(** The battery asks for a charge; no tilt or lift sensor is configured. *)
Definition env_mustCharge : Env :=
  bench_env (bench_defs false false false false) 60000
    never never always never never never.

(** The charging contact is closed. *)
Definition env_charged : Env :=
  bench_env (bench_defs false false false false) 60000
    never always never never never never.

(** The wheels are overloaded and there is no charging contact. *)
Definition env_collision : Env :=
  bench_env (bench_defs false false false false) 60000
    never never never never never always.

(** A machine in [DOCKING] that has counted two collisions, the last one at
    time 59000. *)
Definition machine_two_collisions : Machine :=
  mkMachine DOCKING 0 (mkSensorArray false false) 2 59000 0 0 0 0.

(** The mower is flipped; the tilt sensor is configured; the battery asks
    for a charge. *)
Definition env_tilt : Env :=
  bench_env (bench_defs true false false false) 60000
    never never always never always never.


(** A clock is configured ([__RTC_CLOCK__]) and says that it is not time to
    cut; the battery is on the charger and full; the boundary signal is
    present. *)
Definition env_clock_closed : Env :=
  bench_env (bench_defs false false true false) 60000
    never always never always never never.

(** The left coil is outside the wire during the first ten calls and inside
    afterwards. *)
Definition env_brief_outside : Env :=
  bench_env (bench_defs false false false false) 60000
    (fun k => Nat.ltb k 10) never never never never never.

(** A machine in [LOOKING_FOR_BWF] whose docking timers were written by an
    earlier visit of [DOCKING], half a minute before time 60000. *)
Definition machine_after_docking : Machine :=
  mkMachine LOOKING_FOR_BWF 0 (mkSensorArray false false) 2 30000 30500 30000 0 0.

(** ** Further classes of events and relations on states *)

(** The arrows of the state machine that one cycle of [loop] can take. *)
Definition may_follow (s s' : MowerState) : bool :=
  match s, s' with
  | IDLE, IDLE
  | MOWING, MOWING | MOWING, LOOKING_FOR_BWF
  | LAUNCHING, MOWING
  | DOCKING, DOCKING | DOCKING, CHARGING | DOCKING, LOOKING_FOR_BWF
  | LOOKING_FOR_BWF, LOOKING_FOR_BWF | LOOKING_FOR_BWF, DOCKING
  | CHARGING, CHARGING | CHARGING, LAUNCHING => true
  | _, _ => false
  end.

(** The last six calls of a mowing cycle (lines 283-294). *)
Definition mowing_drive (d : Definition_h) : list Event :=
  [EvTurnIfObstacle; EvStartCutter;
   EvRunForwardOverTime (SLOWSPEED d) (FULLSPEED d) (ACCELERATION_DURATION d);
   EvCompensateSpeedToCutterLoad; EvUpdateHeading;
   EvCompensateSpeedToCompassHeading].

Definition is_tryEnter (e : Event) : bool :=
  match e with EvTryEnterSetupDebugMode _ _ => true | _ => false end.

Definition is_timeToCut (e : Event) : bool :=
  match e with EvTimeToCut _ => true | _ => false end.

Definition is_isLifted (e : Event) : bool :=
  match e with EvIsLifted _ => true | _ => false end.

Definition is_release_turn (e : Event) : bool :=
  match e with
  | EvTurnToReleaseRight _ _ | EvTurnToReleaseLeft _ _ => true
  | _ => false
  end.

(** The battery is healthy, the mower is inside the wire, nothing happens. *)
Definition env_quiet : Env :=
  bench_env (bench_defs false false false false) 60000
    never never never never never never.

(** The calls of a launch (lines 300-305) for the random angle [a], the
    random number [r] that picks the side and the clock reading [t]. *)
Definition launch_calls (d : Definition_h) (a r t : Z) : list Event :=
  [EvRunBackward (FULLSPEED d); EvDelay 5000; EvStop;
   EvRandom 90 160 a; EvRandom 0 100 r;
   (if Z.rem r 2 =? 0 then EvTurnRight a else EvTurnLeft a);
   EvMillis t; EvSetNewTargetHeading; EvRunForward (FULLSPEED d);
   EvResetVoltage].

(** The calls of the re-dock nudge of [doCharging] (lines 416-424), with the
    clock reading [t] that ends it. *)
Definition redock_nudge (d : Definition_h) (t : Z) : list Event :=
  [EvRunBackward (SLOWSPEED d); EvDelay 500; EvRunForward (SLOWSPEED d);
   EvDelay 2000; EvStop; EvMillis t].

(** The clock collaborator is configured and consulted ([__RTC_CLOCK__] and
    [__RTC__CLOCK__] both defined), and says no; the battery is full. *)
Definition env_clock_gate : Env :=
  bench_env (bench_defs false false true true) 60000
    never always never always never never.

(** The battery is full and on the charger; no clock is configured. *)
Definition env_full : Env :=
  bench_env (bench_defs false false false false) 60000
    never always never always never never.

(** A machine in [CHARGING] whose last contact is a minute old at 60000. *)
Definition machine_lost_contact : Machine :=
  mkMachine CHARGING 0 (mkSensorArray false false) 0 0 0 0 0 0.

(** The queries that decide the launch in [doCharging] (lines 427-433). *)
Definition is_launch_query (e : Event) : bool :=
  match e with
  | EvIsFullyCharged _ | EvTimeToCut _ | EvIsInside _ | EvIsOutside _ => true
  | _ => false
  end.

(** The calls of [checkIfLifted] after a lift is detected (lines 216-223);
    [again] is the answer of the second lift query. *)
Definition lift_reaction (d : Definition_h) (again : bool) : list Event :=
  [EvSerialPrintln "Mower is lifted"; EvStopCutter; EvStop;
   EvRunBackward (FULLSPEED d); EvDelay 2000; EvIsLifted again]
  ++ (if again then [EvErrorFlag (ERROR_LIFT d)] else [])
  ++ [EvMowerRandomTurn false].

Definition is_safety_query (e : Event) : bool :=
  match e with EvHasFlipped _ | EvIsLifted _ => true | _ => false end.

(** The lift sensor is configured and the mower is lifted for good. *)
Definition env_lifted : Env :=
  mkEnv (bench_defs false true false false) (fun k => 60000 + Z.of_nat k)
    (fun _ => 100) (fun _ s => s)
    never always never never never never never
    never always never (fun _ => 0) Int16.

(** A release turn towards the wire: to the left for the left coil, to the
    right for the right coil. *)
Definition wrong_release (i : ORIENTATION) (e : Event) : bool :=
  match i, e with
  | LEFT, EvTurnToReleaseLeft _ _ | RIGHT, EvTurnToReleaseRight _ _ => true
  | _, _ => false
  end.

(** The first calls of a boundary escape (lines 247-253), with the result
    [err] of the reverse. *)
Definition escape_start (i : ORIENTATION) (err : Z) : list Event :=
  [EvSerialPrint "Sensor "; EvSerialPrintNum (coil i);
   EvSerialPrintln " outside"; EvSensorSelect (coil i); EvStop;
   EvGoBackwardUntilInside err].

(** The calls of [randomTurn(true)] (lines 183-198). *)
Definition random_turn_back (d : Definition_h) (a r t : Z) : list Event :=
  [EvRunBackward (FULLSPEED d); EvDelay 2000;
   EvRandom 90 160 a; EvRandom 0 100 r;
   (if Z.rem r 2 =? 0 then EvTurnRight a else EvTurnLeft a);
   EvMillis t; EvSetNewTargetHeading; EvRunForward (FULLSPEED d)].

(** The last two calls of a searching cycle (lines 401-402). *)
Definition search_drive (d : Definition_h) : list Event :=
  [EvRunForwardOverTime (SLOWSPEED d) (FULLSPEED d) (ACCELERATION_DURATION d);
   EvTurnIfObstacle].

(** The left coil is outside and every manoeuvre of the mower fails with
    code 7. *)
Definition env_stuck : Env :=
  mkEnv (bench_defs false false false false) (fun k => 60000 + Z.of_nat k)
    (fun _ => 100) (fun _ s => s)
    always always never never never never never
    never never never (fun _ => 7) Int16.

(** A machine in [MOWING] whose snapshot has the left coil outside. *)
Definition machine_left_outside : Machine :=
  mkMachine MOWING 0 (mkSensorArray true false) 0 0 0 0 0 0.

(** The last two calls of a tracking cycle of [doDocking] (lines 384-385). *)
Definition track_wire : list Event :=
  [EvSensorSelect (coil LEFT); EvAdjustMotorSpeeds].

(** A clock reading just before the 32-bit roll-over of [millis()]. *)
Definition near_rollover : Z := 2 ^ 32 - 100.

(** A machine in [DOCKING] whose snapshot has the left coil outside and
    whose timers are a minute old at 60000. *)
Definition machine_docking_outside : Machine :=
  mkMachine DOCKING 0 (mkSensorArray true false) 0 0 0 0 0 0.

(** Both coils are outside the wire and the wheels are overloaded at every
    call; there is no charging contact. *)
Definition env_docking_collisions : Env :=
  bench_env (bench_defs false false false false) 60000
    always never never never never always.

Definition is_displayUpdate (e : Event) : bool :=
  match e with EvDisplayUpdate => true | _ => false end.

(** The wheels are overloaded at every call, and the charging contact closes
    at call 8 only: in a run of [doDocking] that starts at call 0 with the
    left coil inside, that is the check after the collision. *)
Definition env_contact_after_collision : Env :=
  bench_env (bench_defs false false false false) 60000
    never (fun k => Nat.eqb k 8) never never never always.

(** A machine in [DOCKING] that has counted two collisions, the last one a
    second before time 60000, and has seen the wire a moment ago. *)
Definition machine_third_collision : Machine :=
  mkMachine DOCKING 0 (mkSensorArray false false) 2 59000 59900 59900 0 0.

(** ** Independence of a program from some variables *)

(** The machine [m] with the four statics of [doDocking] replaced. *)
Definition with_docking (c lc la lo : Z) (m : Machine) : Machine :=
  mkMachine (state m) (time_at_turning m) (sensorOutside m) c lc la lo
    (lastContact m) (lastDisplayUpdate m).

(** The result [r] with its machine changed by [u]. *)
Definition lift_res {A} (u : Machine -> Machine) (r : Res A) : Res A :=
  mkRes (val r) (u (mach r)) (tick r) (trace r).

(** [p] neither reads nor writes what [u] changes: started on a machine
    changed by [u], it makes the same calls, returns the same value and ends
    on the same machine changed by [u]. *)
Definition blind {A} (u : Machine -> Machine) (p : M A) : Prop :=
  forall n m, p n (u m) = lift_res u (p n m).

Definition is_backing_delay (e : Event) : bool :=
  match e with EvDelay d => d =? 2000 | _ => false end.

(** The calls of [setup] before it polls the debug collaborator
    (lines 132-164). *)
Definition setup_prologue (d : Definition_h) : list Event :=
  [EvCutterInitialize; EvSerialBegin 115200; EvDefinePinsInputOutput;
   EvSetDefaultLevels; EvDisplayInitialize; EvResetVoltage;
   EvCompassInitialize; EvAttachInterrupt; EvSensorSelect (coil LEFT);
   EvDisplayClear; EvDisplayPrint ("--- LIAM ---" ++ nl);
   EvDisplayPrint (VERSION_STRING d ++ nl);
   EvDisplayPrint (BUILD_DATE_TIME d ++ nl);
   EvSerialPrintln "----------------";
   EvSerialPrintln "Send D to enter setup and debug mode"; EvDelay 5000].

(** * Theorems *)

(** ** The monad: traces and frames *)

Lemma emits_ret {A} P (a : A) : emits P (ret a).
Proof. intros n m. constructor. Qed.

Lemma emits_get P : emits P get.
Proof. intros n m. constructor. Qed.

Lemma emits_modify P f : emits P (modify f).
Proof. intros n m. constructor. Qed.

Lemma emits_command (P : Event -> Prop) e : P e -> emits P (command e).
Proof. intros H n m. simpl. auto. Qed.

Lemma emits_query {A} (P : Event -> Prop) (ans : nat -> A) ev :
  (forall a, P (ev a)) -> emits P (query ans ev).
Proof. intros H n m. simpl. auto. Qed.

Lemma emits_bind {A B} P (p : M A) (f : A -> M B) :
  emits P p -> (forall a, emits P (f a)) -> emits P (bind p f).
Proof.
  intros Hp Hf n m. unfold bind. simpl.
  apply Forall_app. split; [apply Hp | apply Hf].
Qed.

Lemma keeps_ret {A X} (f : Machine -> X) (a : A) : keeps f (ret a).
Proof. intros n m. reflexivity. Qed.

Lemma keeps_get {X} (f : Machine -> X) : keeps f get.
Proof. intros n m. reflexivity. Qed.

Lemma keeps_modify {X} (f : Machine -> X) g :
  (forall m, f (g m) = f m) -> keeps f (modify g).
Proof. intros H n m. apply H. Qed.

Lemma keeps_command {X} (f : Machine -> X) e : keeps f (command e).
Proof. intros n m. reflexivity. Qed.

Lemma keeps_query {A X} (f : Machine -> X) (ans : nat -> A) ev : keeps f (query ans ev).
Proof. intros n m. reflexivity. Qed.

Lemma keeps_bind {A B X} (f : Machine -> X) (p : M A) (k : A -> M B) :
  keeps f p -> (forall a, keeps f (k a)) -> keeps f (bind p k).
Proof.
  intros Hp Hk n m. unfold bind. simpl. rewrite Hk. apply Hp.
Qed.

Lemma Forall_false_not_In (c : Event -> bool) tr e :
  Forall (fun x => c x = false) tr -> c e = true -> ~ In e tr.
Proof.
  intros HF He Hin. rewrite Forall_forall in HF.
  specialize (HF e Hin). congruence.
Qed.

(** Collaborator calls are unfolded to [command] and [query]. *)
Ltac unfold_calls :=
  unfold millis, random, delay, SetupAndDebug_tryEnterSetupDebugMode,
    Sensor_select, Sensor_isOutOfBounds, Sensor_isInside, Sensor_isOutside,
    Battery_isBeingCharged, Battery_mustCharge, Battery_isFullyCharged,
    Clock_timeToCut, Mower_hasFlipped, Mower_isLifted,
    Mower_wheelsAreOverloaded, Mower_GoBackwardUntilInside,
    Mower_turnToReleaseRight, Mower_turnToReleaseLeft.

(** One syntax-directed step of a proof of [emits] or [keeps]. *)
Ltac prog_step :=
  match goal with
  | |- emits _ (bind _ _) => apply emits_bind; [ | intro ]
  | |- emits _ (ret _) => apply emits_ret
  | |- emits _ get => apply emits_get
  | |- emits _ (modify _) => apply emits_modify
  | |- emits _ (command _) => apply emits_command; reflexivity
  | |- emits _ (query _ _) => apply emits_query; intro; reflexivity
  | |- keeps _ (bind _ _) => apply keeps_bind; [ | intro ]
  | |- keeps _ (ret _) => apply keeps_ret
  | |- keeps _ get => apply keeps_get
  | |- keeps _ (modify _) => apply keeps_modify; intro; reflexivity
  | |- keeps _ (command _) => apply keeps_command
  | |- keeps _ (query _ _) => apply keeps_query
  | |- emits _ (if ?c then _ else _) => destruct c
  | |- keeps _ (if ?c then _ else _) => destruct c
  | |- emits _ (match ?x with _ => _ end) => destruct x
  | |- keeps _ (match ?x with _ => _ end) => destruct x
  end.

Ltac prog_auto :=
  unfold_calls;
  repeat first
    [ prog_step
    | progress unfold randomTurn, checkIfFlipped, checkIfLifted, turnToRelease,
        mowingSensor, doMowing, doLaunching, dockingTrack, dockingCollision,
        doDocking, doLookForBWF, doCharging, pollSensor, loopSense, dispatch,
        loopReport
    | progress unfold_calls ].

(** ** Symbolic execution of a handler, one call at a time *)

Lemma wp_bind {A B} (p : M A) (f : A -> M B) n m (Q : Res B -> Prop) :
  wp p n m (fun r =>
    wp (f (val r)) (tick r) (mach r) (fun r' =>
      Q (mkRes (val r') (mach r') (tick r') (trace r ++ trace r')))) ->
  wp (bind p f) n m Q.
Proof. exact (fun H => H). Qed.

Lemma wp_ret {A} (a : A) n m (Q : Res A -> Prop) :
  Q (mkRes a m n []) -> wp (ret a) n m Q.
Proof. exact (fun H => H). Qed.

Lemma wp_get n m (Q : Res Machine -> Prop) :
  Q (mkRes m m n []) -> wp get n m Q.
Proof. exact (fun H => H). Qed.

Lemma wp_modify f n m (Q : Res unit -> Prop) :
  Q (mkRes tt (f m) n []) -> wp (modify f) n m Q.
Proof. exact (fun H => H). Qed.

Lemma wp_command e n m (Q : Res unit -> Prop) :
  Q (mkRes tt m (S n) [e]) -> wp (command e) n m Q.
Proof. exact (fun H => H). Qed.

Lemma wp_query {A} (ans : nat -> A) ev n m (Q : Res A -> Prop) :
  Q (mkRes (ans n) m (S n) [ev (ans n)]) -> wp (query ans ev) n m Q.
Proof. exact (fun H => H). Qed.

Ltac wp_simpl :=
  cbn [val mach tick trace app
       state time_at_turning sensorOutside collisionCount lastCollision
       lastAllOutsideCheck lastOutside lastContact lastDisplayUpdate
       set_state set_time_at_turning set_sensorOutside set_collisionCount
       set_lastCollision set_lastAllOutsideCheck set_lastOutside
       set_lastContact set_lastDisplayUpdate
       sensor_get sensor_set at_left at_right].

(** Start the execution of the run [t] the goal is about. *)
Ltac wp_at t :=
  pattern t;
  match goal with
  | |- ?Q ?x => match x with ?p ?n ?m => change (wp p n m Q) end
  end.

(** Step over a sub-program that stays folded. *)
Ltac wp_call := unfold wp at 1; wp_simpl.

Ltac wp_step :=
  match goal with
  | |- wp (bind _ _) _ _ _ => apply wp_bind
  | |- wp (ret _) _ _ _ => apply wp_ret; wp_simpl
  | |- wp get _ _ _ => apply wp_get; wp_simpl
  | |- wp (modify _) _ _ _ => apply wp_modify; wp_simpl
  | |- wp (command _) _ _ _ => apply wp_command; wp_simpl
  | |- wp (query _ _) _ _ _ => apply wp_query; wp_simpl
  | |- wp (if true then ?a else _) ?n ?m ?Q => change (wp a n m Q)
  | |- wp (if false then _ else ?b) ?n ?m ?Q => change (wp b n m Q)
  | |- wp (if ?c then _ else _) _ _ _ => destruct c eqn:?
  end.

Ltac wp_run := unfold_calls; repeat wp_step.

(** Finding a given suffix in an explicit list. *)
Lemma suffix_here (s : list Event) : exists pre, s = pre ++ s.
Proof. exists []. reflexivity. Qed.

Lemma suffix_later (x : Event) (l s : list Event) :
  (exists pre, l = pre ++ s) -> exists pre, x :: l = pre ++ s.
Proof. intros [pre ->]. exists (x :: pre). reflexivity. Qed.

Ltac find_suffix := repeat first [ apply suffix_here | apply suffix_later ].

(** Case analysis of a membership in an explicit list, possibly followed by
    the trace of a sub-program. *)
Ltac in_cases H :=
  repeat match type of H with
  | In _ (_ :: _) => destruct H as [H | H]; [ try discriminate H | ]
  | In _ [] => destruct H
  end.

Lemma Forall_true_not_In (c : Event -> bool) tr e :
  Forall (fun x => c x = true) tr -> c e = false -> ~ In e tr.
Proof.
  intros HF He Hin. rewrite Forall_forall in HF.
  specialize (HF e Hin). congruence.
Qed.

(** ** setup *)

(** C7. [CutterMotor.initialize()] is the first call that [setup] makes: it
    comes before the pins are configured and before the default levels are
    set, whatever the environment answers later. *)
Theorem setup_cutter_initialize_first (env : Env) (n : nat) (m : Machine) :
  exists rest,
    trace (setup env n m) = EvCutterInitialize :: rest /\
    In EvDefinePinsInputOutput rest /\
    In EvSetDefaultLevels rest /\
    ~ In EvCutterInitialize rest.
Proof.
  eexists. split; [reflexivity | ].
  cbn. unfold_calls. cbn.
  repeat split; try tauto.
  intros H.
  repeat (destruct H as [H | H]; [discriminate H | ]).
  destruct (MowerState_eqb _ _); cbn in H; try tauto.
  destruct H as [H | H]; [discriminate H | ].
  destruct (battery_isBeingCharged _ _); cbn in H; intuition discriminate.
Qed.

(** ** The main loop *)

(** C9. In a cycle in which the debug collaborator answers [SETUP_DEBUG] the
    loop returns at once: the poll of the debug collaborator is the only call
    of the cycle (no sensor poll, no battery update, no display update, no
    safety check, no handler), and only [state] changes, so [sensorOutside]
    and every timer are as they were. *)
Theorem loop_setup_debug_returns (env : Env) (n : nat) (m : Machine) :
  debug_tryEnter env n (state m) = SETUP_DEBUG ->
  trace (loop env n m) = [EvTryEnterSetupDebugMode (state m) SETUP_DEBUG] /\
  mach (loop env n m) = set_state SETUP_DEBUG m /\
  sensorOutside (mach (loop env n m)) = sensorOutside m /\
  lastDisplayUpdate (mach (loop env n m)) = lastDisplayUpdate m.
Proof.
  intros H. wp_at (loop env n m).
  unfold loop, SetupAndDebug_tryEnterSetupDebugMode.
  do 5 wp_step. rewrite H. cbn [MowerState_eqb]. wp_run.
  auto.
Qed.

Lemma loopSense_keeps_state env : keeps state (loopSense env).
Proof. prog_auto. Qed.

Lemma loopReport_is_report env lt : emits (fun e => is_report e = true) (loopReport env lt).
Proof. prog_auto. Qed.

(** A cycle in which the debug collaborator answers a state [s] other than
    [SETUP_DEBUG] is the sensing phase, then the handler of [s], then the
    loop-time report. *)
Lemma loop_phases (env : Env) (n : nat) (m : Machine) (s : MowerState) :
  debug_tryEnter env n (state m) = s ->
  s <> SETUP_DEBUG ->
  let r0 := loopSense env (S n) (set_state s m) in
  let r1 := dispatch env s (tick r0) (mach r0) in
  let r2 := loopReport env (val r0) (tick r1) (mach r1) in
  trace (loop env n m)
    = EvTryEnterSetupDebugMode (state m) s :: trace r0 ++ trace r1 ++ trace r2 /\
  mach (loop env n m) = mach r1 /\
  tick (loop env n m) = tick r2.
Proof.
  intros Hs Hne. cbv zeta.
  pose proof (loopSense_keeps_state env (S n) (set_state s m)) as Hk.
  cbn [state set_state] in Hk.
  wp_at (loop env n m).
  unfold loop, SetupAndDebug_tryEnterSetupDebugMode.
  do 5 wp_step. rewrite Hs.
  replace (MowerState_eqb s SETUP_DEBUG) with false
    by (destruct s; try reflexivity; contradiction).
  wp_step. wp_step. wp_call. wp_step. wp_step. wp_step. rewrite Hk.
  wp_call. wp_call.
  auto.
Qed.

(** An event of a dispatching cycle that belongs neither to the sensing phase
    nor to the report was emitted by the handler. *)
Lemma loop_handler_event (env : Env) (n : nat) (m : Machine) (s : MowerState)
    (c : Event -> bool) (e : Event) :
  debug_tryEnter env n (state m) = s ->
  s <> SETUP_DEBUG ->
  c e = true ->
  c (EvTryEnterSetupDebugMode (state m) s) = false ->
  emits (fun x => c x = false) (loopSense env) ->
  is_report e = false ->
  In e (trace (loop env n m)) ->
  let r0 := loopSense env (S n) (set_state s m) in
  In e (trace (dispatch env s (tick r0) (mach r0))).
Proof.
  intros Hs Hne Hc Htry Hsense Hrep Hin r0.
  destruct (loop_phases env n m s Hs Hne) as (Htr & _ & _).
  fold r0 in Htr. rewrite Htr in Hin.
  destruct Hin as [Hin | Hin]; [ congruence | ].
  apply in_app_or in Hin. destruct Hin as [Hin | Hin].
  - exfalso. revert Hin. apply (Forall_false_not_In c); [ apply Hsense | exact Hc ].
  - apply in_app_or in Hin. destruct Hin as [Hin | Hin]; [ exact Hin | ].
    exfalso. revert Hin.
    apply (Forall_true_not_In is_report); [ apply loopReport_is_report | exact Hrep ].
Qed.


(** ** LookingForBoundary *)

(** Lines 389-395: with the left entry of the snapshot set, the handler stops
    the cutter, sets the state and returns. *)
Lemma doLookForBWF_left_outside (env : Env) (n : nat) (m : Machine) :
  sensor_get (sensorOutside m) LEFT = true ->
  doLookForBWF env n m = mkRes tt (set_state DOCKING m) (S n) [EvStopCutter].
Proof.
  intros H. cbn [sensor_get] in H. wp_at (doLookForBWF env n m).
  unfold doLookForBWF. do 4 wp_step. rewrite H. wp_run. reflexivity.
Qed.

(** C5. In a cycle that dispatches [LOOKING_FOR_BWF] with the left entry of
    the sensor snapshot set, the state is [DOCKING] at the end of the cycle,
    and after the sensing phase the cycle consists of the handler's
    [stopCutter] and the loop-time report only: no random turn, no ramp, no
    obstacle turn. *)
Theorem lookForBWF_left_outside_docks (env : Env) (n : nat) (m : Machine) :
  debug_tryEnter env n (state m) = LOOKING_FOR_BWF ->
  let sense := loopSense env (S n) (set_state LOOKING_FOR_BWF m) in
  sensor_get (sensorOutside (mach sense)) LEFT = true ->
  state (mach (loop env n m)) = DOCKING /\
  exists report,
    trace (loop env n m)
      = EvTryEnterSetupDebugMode (state m) LOOKING_FOR_BWF
          :: trace sense ++ EvStopCutter :: report /\
    Forall (fun e => is_report e = true) report /\
    Forall (fun e => is_forward_motion e = false) (EvStopCutter :: report).
Proof.
  intros Hs sense Hout.
  destruct (loop_phases env n m LOOKING_FOR_BWF Hs) as (Htr & Hm & _);
    [discriminate | ].
  fold sense in Htr, Hm. cbn [dispatch] in Htr, Hm.
  rewrite (doLookForBWF_left_outside env _ _ Hout) in Htr, Hm.
  cbn [mach trace tick val app] in Htr, Hm.
  rewrite Hm, Htr. clear Hm Htr.
  split; [reflexivity | ].
  eexists. split; [reflexivity | ].
  split.
  - apply loopReport_is_report.
  - constructor; [reflexivity | ].
    eapply Forall_impl; [ | apply loopReport_is_report ].
    intros e He. destruct e; try discriminate He; reflexivity.
Qed.

Lemma lookForBWF_left_outside_docks_witness :
  state (mach (loop env_outside 0%nat (bench_machine LOOKING_FOR_BWF))) = DOCKING.
Proof.
  exact (proj1 (lookForBWF_left_outside_docks env_outside 0%nat
                  (bench_machine LOOKING_FOR_BWF) eq_refl eq_refl)).
Defined.

(** ** Docking *)

Lemma dockingTrack_no_charge_query env :
  emits (fun e => is_isBeingCharged e = false) (dockingTrack env).
Proof. prog_auto. Qed.

Lemma dockingTrack_no_escape_turn env :
  emits (fun e => is_escape_turn e = false) (dockingTrack env).
Proof. prog_auto. Qed.

Lemma dockingTrack_no_overload_query env :
  emits (fun e => is_wheelsAreOverloaded e = false) (dockingTrack env).
Proof. prog_auto. Qed.

Lemma dockingTrack_keeps_collisionCount env : keeps collisionCount (dockingTrack env).
Proof. prog_auto. Qed.

(** A charging contact seen by [doDocking], at either of its two checks,
    stops the wheels and sets the state. *)
Lemma doDocking_charged (env : Env) (n : nat) (m : Machine) :
  In (EvIsBeingCharged true) (trace (doDocking env n m)) ->
  state (mach (doDocking env n m)) = CHARGING /\
  exists pre, trace (doDocking env n m) = pre ++ [EvIsBeingCharged true; EvStop].
Proof.
  wp_at (doDocking env n m). unfold doDocking, dockingCollision. wp_run.
  all: unfold wp; intros H.
  all: match goal with
       | |- context [dockingTrack] =>
           exfalso; in_cases H; revert H;
           apply (Forall_false_not_In is_isBeingCharged);
           [ apply dockingTrack_no_charge_query | reflexivity ]
       | |- _ => idtac
       end.
  all: try (in_cases H; fail).
  all: split; [ reflexivity | find_suffix ].
Qed.

Lemma loopSense_no_charge_query env :
  emits (fun e => is_isBeingCharged e = false) (loopSense env).
Proof. prog_auto. Qed.

(** C4. In a cycle that dispatches [DOCKING] and in which [isBeingCharged()]
    answers true (at the first check or at the check after a collision),
    [Mower.stop()] is the next call, only the loop-time report follows it, and
    the state is [CHARGING] at the end of the cycle; the collision count of
    the machine is arbitrary. *)
Theorem docking_charging_contact (env : Env) (n : nat) (m : Machine) :
  debug_tryEnter env n (state m) = DOCKING ->
  In (EvIsBeingCharged true) (trace (loop env n m)) ->
  state (mach (loop env n m)) = CHARGING /\
  exists pre report,
    trace (loop env n m) = pre ++ [EvIsBeingCharged true; EvStop] ++ report /\
    Forall (fun e => is_report e = true) report.
Proof.
  intros Hs Hin.
  assert (Hne : DOCKING <> SETUP_DEBUG) by discriminate.
  pose proof (loop_handler_event env n m DOCKING is_isBeingCharged
                (EvIsBeingCharged true) Hs Hne
                eq_refl eq_refl (loopSense_no_charge_query env) eq_refl Hin) as Hh.
  destruct (loop_phases env n m DOCKING Hs Hne) as (Htr & Hm & _).
  cbv zeta in Hh. cbn [dispatch] in Hh, Htr, Hm.
  destruct (doDocking_charged env _ _ Hh) as (Hst & pre & Hpre).
  rewrite Hm. split; [ exact Hst | ].
  rewrite Htr, Hpre.
  match goal with
  | |- context [?a :: trace ?r0 ++ (pre ++ ?mid) ++ trace ?r2] =>
      exists (a :: trace r0 ++ pre), (trace r2); split;
      [ generalize (trace r0), (trace r2); intros l0 l2;
        cbn [app]; rewrite <- !app_assoc; reflexivity
      | apply loopReport_is_report ]
  end.
Qed.

Lemma loopSense_no_escape_turn env :
  emits (fun e => is_escape_turn e = false) (loopSense env).
Proof. prog_auto. Qed.

(** Lines 350-358: a run of [doDocking] that turns right by 70 degrees is a
    run through the escape branch; the turn is followed by [stop], by a clock
    reading that becomes [lastOutside], and by [runForward], with which the
    handler returns. *)
Lemma doDocking_escape (env : Env) (n : nat) (m : Machine) :
  In (EvTurnRight 70) (trace (doDocking env n m)) ->
  collisionCount (mach (doDocking env n m)) = 0 /\
  state (mach (doDocking env n m)) = state m /\
  exists t,
    lastOutside (mach (doDocking env n m)) = t /\
    exists pre,
      trace (doDocking env n m)
        = pre ++ [EvTurnRight 70; EvStop; EvMillis t;
                  EvRunForward (FULLSPEED (defs env))].
Proof.
  wp_at (doDocking env n m). unfold doDocking, dockingCollision. wp_run.
  all: unfold wp; intros H.
  all: match goal with
       | |- context [dockingTrack] =>
           exfalso; in_cases H; revert H;
           apply (Forall_false_not_In is_escape_turn);
           [ apply dockingTrack_no_escape_turn | reflexivity ]
       | |- _ => idtac
       end.
  all: try (in_cases H; fail).
  all: split; [ reflexivity | split; [ reflexivity | ] ].
  all: eexists; split; [ reflexivity | find_suffix ].
Qed.

(** C10. In a cycle that dispatches [DOCKING] and runs the escape branch of
    the third collision (the only place of such a cycle that turns right by
    70 degrees), the collision counter is 0 afterwards, [lastOutside] is the
    clock reading taken in the branch, the state is still [DOCKING] (the
    boundary-lost test of lines 376-381 is not reached), and the last command
    of the handler is [runForward(FULLSPEED)]: only the loop-time report
    follows it. *)
Theorem docking_escape_refreshes_timers (env : Env) (n : nat) (m : Machine) :
  debug_tryEnter env n (state m) = DOCKING ->
  In (EvTurnRight 70) (trace (loop env n m)) ->
  collisionCount (mach (loop env n m)) = 0 /\
  state (mach (loop env n m)) = DOCKING /\
  exists t,
    lastOutside (mach (loop env n m)) = t /\
    exists pre report,
      trace (loop env n m)
        = pre ++ [EvTurnRight 70; EvStop; EvMillis t;
                  EvRunForward (FULLSPEED (defs env))] ++ report /\
      Forall (fun e => is_report e = true) report.
Proof.
  intros Hs Hin.
  assert (Hne : DOCKING <> SETUP_DEBUG) by discriminate.
  pose proof (loop_handler_event env n m DOCKING is_escape_turn
                (EvTurnRight 70) Hs Hne
                eq_refl eq_refl (loopSense_no_escape_turn env) eq_refl Hin) as Hh.
  destruct (loop_phases env n m DOCKING Hs Hne) as (Htr & Hm & _).
  pose proof (loopSense_keeps_state env (S n) (set_state DOCKING m)) as Hk.
  cbv zeta in Hh. cbn [dispatch state set_state] in Hh, Htr, Hm, Hk.
  destruct (doDocking_escape env _ _ Hh) as (Hc & Hst & t & Ht & pre & Hpre).
  rewrite Hm. split; [ exact Hc | ].
  split; [ rewrite Hst; exact Hk | ].
  exists t. split; [ exact Ht | ].
  rewrite Htr, Hpre.
  match goal with
  | |- context [?a :: trace ?r0 ++ (pre ++ ?mid) ++ trace ?r2] =>
      exists (a :: trace r0 ++ pre), (trace r2); split;
      [ generalize (trace r0), (trace r2); intros l0 l2;
        cbn [app]; rewrite <- !app_assoc; reflexivity
      | apply loopReport_is_report ]
  end.
Qed.

(** Splitting an explicit list at a given element. *)
Lemma split_here (l : list Event) : l = [] ++ l.
Proof. reflexivity. Qed.

Lemma split_later (x : Event) (l pre s : list Event) :
  l = pre ++ s -> x :: l = (x :: pre) ++ s.
Proof. intros ->. reflexivity. Qed.

Ltac find_split := repeat first [ apply split_here | apply split_later ].
Ltac find_in := repeat first [ left; reflexivity | right ].

Ltac gt_norm :=
  repeat match goal with
  | H : (_ >? _) = true |- _ => rewrite Z.gtb_ltb in H; apply Z.ltb_lt in H
  | H : (_ >? _) = false |- _ => rewrite Z.gtb_ltb in H; apply Z.ltb_ge in H
  end.

Ltac gtb_norm :=
  repeat match goal with
  | H : (_ >? _) = true |- _ => rewrite Z.gtb_ltb in H; apply Z.ltb_lt in H
  | H : (_ >? _) = false |- _ => rewrite Z.gtb_ltb in H; apply Z.ltb_ge in H
  | H : (_ =? _) = true |- _ => apply Z.eqb_eq in H
  | H : (_ =? _) = false |- _ => apply Z.eqb_neq in H
  end.

(** Refuting a membership in an explicit list that may end with the trace of
    [dockingTrack]. *)
Ltac not_in_docking H :=
  in_cases H;
  try (revert H;
       first [ apply (Forall_false_not_In is_escape_turn);
               [ apply dockingTrack_no_escape_turn | reflexivity ]
             | apply (Forall_false_not_In is_isBeingCharged);
               [ apply dockingTrack_no_charge_query | reflexivity ]
             | apply (Forall_false_not_In is_wheelsAreOverloaded);
               [ apply dockingTrack_no_overload_query | reflexivity ] ]).

Lemma dockingTrack_keeps_lastCollision env : keeps lastCollision (dockingTrack env).
Proof. prog_auto. Qed.

Lemma int_incr_0 (w : IntWidth) : int_incr w 0 = 1.
Proof. destruct w; reflexivity. Qed.

Lemma int_incr_below (w : IntWidth) (c : Z) : c < 32767 -> int_incr w c = c + 1.
Proof.
  intros H. unfold int_incr.
  destruct (Z.eqb_spec c (INT_MAX w)) as [E | E]; [ | reflexivity ].
  exfalso. destruct w; cbn in E; lia.
Qed.

(** C3, as the sketch behaves.  A cycle of [doDocking] that handles a
    collision reads the clock right after the overload query, at [t], updates
    the counter to [c] and prints it, and stores a second clock reading [t2]
    in [lastCollision] as the time of this collision.  [c] is 1 when the gap
    between [t] and the stored time of the previous collision exceeds 10 s
    (the counter was reset to 0 and this collision counted), and the old
    counter incremented as an [int] otherwise.  The escape turn (turn right by 70 degrees)
    is taken exactly when [c] is 3 and no charging contact is seen after the
    collision; it leaves the counter at 0 and ends with a run forward.
    Otherwise the counter stays at [c], and without a charging contact the
    mower is nudged backward. *)
Theorem docking_collision_counter (env : Env) (n : nat) (m : Machine) :
  In (EvWheelsAreOverloaded true) (trace (doDocking env n m)) ->
  exists pre t t2 c post,
    trace (doDocking env n m)
      = pre ++ EvWheelsAreOverloaded true :: EvMillis t :: EvMillis t2 :: post /\
    In (EvSerialPrintlnNum c) post /\
    lastCollision (mach (doDocking env n m)) = t2 /\
    (10000 < elapsed t (lastCollision m) -> c = 1) /\
    (elapsed t (lastCollision m) <= 10000 ->
     c = int_incr (int_width env) (collisionCount m)) /\
    (In (EvTurnRight 70) post <-> c = 3 /\ ~ In (EvIsBeingCharged true) post) /\
    (In (EvTurnRight 70) post ->
       collisionCount (mach (doDocking env n m)) = 0 /\
       In (EvRunForward (FULLSPEED (defs env))) post) /\
    (~ In (EvTurnRight 70) post ->
       collisionCount (mach (doDocking env n m)) = c /\
       (~ In (EvIsBeingCharged true) post ->
        In (EvRunBackward (FULLSPEED (defs env))) post)).
Proof.
  wp_at (doDocking env n m). unfold doDocking, dockingCollision. wp_run.
  all: unfold wp; intros H.
  all: try (exfalso; not_in_docking H; fail).
  all: clear H; gtb_norm.
  all: eexists _, _, _, _, _; split; [ find_split | ].
  all: split; [ find_in | ].
  all: split; [ rewrite ?dockingTrack_keeps_lastCollision; reflexivity | ].
  all: split; [ intros; first [ apply int_incr_0 | lia ] | ].
  all: split; [ intros; first [ reflexivity | lia ] | ].
  all: first
    [ (* the escape branch *)
      solve [ split; [ split;
                [ intros _; split; [ assumption | intros Hx; not_in_docking Hx ]
                | intros _; find_in ] | ];
              split;
                [ intros _; split; [ reflexivity | find_in ]
                | intros Hn; exfalso; apply Hn; find_in ] ]
    | (* a charging contact after the collision *)
      solve [ split; [ split;
                [ intros Hx; not_in_docking Hx
                | intros [_ Hn]; exfalso; apply Hn; find_in ] | ];
              split;
                [ intros Hx; not_in_docking Hx
                | intros _; split;
                    [ reflexivity | intros Hn; exfalso; apply Hn; find_in ] ] ]
    | (* the nudge back, then on to the tracking part *)
      solve [ split; [ split;
                [ intros Hx; exfalso; not_in_docking Hx
                | intros [Hc _]; contradiction ] | ];
              split;
                [ intros Hx; exfalso; not_in_docking Hx
                | intros _; split;
                    [ rewrite dockingTrack_keeps_collisionCount; reflexivity
                    | intros _; find_in ] ] ] ].
Qed.

Lemma docking_collision_counter_witness :
  exists pre t t2 c post,
    trace (doDocking env_collision 0%nat machine_two_collisions)
      = pre ++ EvWheelsAreOverloaded true :: EvMillis t :: EvMillis t2 :: post /\
    In (EvSerialPrintlnNum c) post /\
    lastCollision (mach (doDocking env_collision 0%nat machine_two_collisions)) = t2.
Proof.
  destruct (docking_collision_counter env_collision 0%nat machine_two_collisions)
    as (pre & t & t2 & c & post & H1 & H2 & H3 & _).
  - vm_compute. find_in.
  - exists pre, t, t2, c, post. repeat split; assumption.
Defined.

(** C3 as the claim words it fails.  The first run is the third collision
    within ten seconds of the second: the counter reaches 3, but the charging
    contact is seen after the collision, so the handler sets [CHARGING] and
    returns without the escape turn and without resetting the counter.  In
    the next run of the handler, ten milliseconds later on the clock, the
    collision is counted as the fourth and answered by a nudge backward, with
    no escape turn. *)
Lemma third_collision_with_contact_no_escape :
  let r1 := doDocking env_contact_after_collision 0%nat machine_third_collision in
  let r2 := doDocking env_contact_after_collision (tick r1) (mach r1) in
  trace r1
    = [EvStopCutter; EvIsBeingCharged false; EvWheelsAreOverloaded true;
       EvMillis 60003; EvMillis 60004;
       EvSerialPrint "Collision while docking: "; EvSerialPrintlnNum 3;
       EvDelay 1000; EvIsBeingCharged true; EvStop] /\
  state (mach r1) = CHARGING /\
  collisionCount (mach r1) = 3 /\
  ~ In (EvTurnRight 70) (trace r1) /\
  trace r2
    = [EvStopCutter; EvIsBeingCharged false; EvWheelsAreOverloaded true;
       EvMillis 60013; EvMillis 60014;
       EvSerialPrint "Collision while docking: "; EvSerialPrintlnNum 4;
       EvDelay 1000; EvIsBeingCharged false;
       EvRunBackward 255; EvDelay 1300;
       EvMillis 60021; EvMillis 60022;
       EvSensorSelect 0; EvAdjustMotorSpeeds] /\
  collisionCount (mach r2) = 4 /\
  ~ In (EvTurnRight 70) (trace r2).
Proof.
  cbv zeta.
  assert (E1 : trace (doDocking env_contact_after_collision 0%nat machine_third_collision)
               = [EvStopCutter; EvIsBeingCharged false; EvWheelsAreOverloaded true;
                  EvMillis 60003; EvMillis 60004;
                  EvSerialPrint "Collision while docking: "; EvSerialPrintlnNum 3;
                  EvDelay 1000; EvIsBeingCharged true; EvStop])
    by (vm_compute; reflexivity).
  assert (E2 : trace (doDocking env_contact_after_collision
                        (tick (doDocking env_contact_after_collision 0%nat
                                 machine_third_collision))
                        (mach (doDocking env_contact_after_collision 0%nat
                                 machine_third_collision)))
               = [EvStopCutter; EvIsBeingCharged false; EvWheelsAreOverloaded true;
                  EvMillis 60013; EvMillis 60014;
                  EvSerialPrint "Collision while docking: "; EvSerialPrintlnNum 4;
                  EvDelay 1000; EvIsBeingCharged false;
                  EvRunBackward 255; EvDelay 1300;
                  EvMillis 60021; EvMillis 60022;
                  EvSensorSelect 0; EvAdjustMotorSpeeds])
    by (vm_compute; reflexivity).
  split; [ exact E1 | ].
  split; [ vm_compute; reflexivity | ].
  split; [ vm_compute; reflexivity | ].
  split; [ rewrite E1; intros H; in_cases H | ].
  split; [ exact E2 | ].
  split; [ vm_compute; reflexivity | ].
  rewrite E2. intros H. in_cases H.
Qed.

Lemma docking_charging_contact_witness :
  state (mach (loop env_charged 0%nat (bench_machine DOCKING))) = CHARGING.
Proof.
  refine (proj1 (docking_charging_contact env_charged 0%nat
                   (bench_machine DOCKING) eq_refl _)).
  vm_compute. find_in.
Defined.

Lemma docking_escape_refreshes_timers_witness :
  collisionCount (mach (loop env_collision 0%nat machine_two_collisions)) = 0.
Proof.
  refine (proj1 (docking_escape_refreshes_timers env_collision 0%nat
                   machine_two_collisions eq_refl _)).
  vm_compute. find_in.
Defined.

Lemma loop_setup_debug_returns_witness :
  trace (loop env_outside 0%nat (bench_machine SETUP_DEBUG))
    = [EvTryEnterSetupDebugMode SETUP_DEBUG SETUP_DEBUG].
Proof.
  exact (proj1 (loop_setup_debug_returns env_outside 0%nat
                  (bench_machine SETUP_DEBUG) eq_refl)).
Defined.

(** ** Mowing *)

Lemma wp_emits {A} (P : Event -> Prop) (p : M A) n m (Q : Res A -> Prop) :
  emits P p -> (forall r, Forall P (trace r) -> Q r) -> wp p n m Q.
Proof. intros Hp HQ. apply HQ. apply Hp. Qed.

Lemma loopSense_no_mustCharge env :
  emits (fun e => is_mustCharge e = false) (loopSense env).
Proof. prog_auto. Qed.

(** Lines 231-234: a run of [doMowing] in which the battery must charge sets
    the state and returns. *)
Lemma doMowing_mustCharge (env : Env) (n : nat) (m : Machine) :
  In (EvMustCharge true) (trace (doMowing env n m)) ->
  doMowing env n m
    = mkRes tt (set_state LOOKING_FOR_BWF m) (S n) [EvMustCharge true].
Proof.
  wp_at (doMowing env n m). unfold doMowing, Battery_mustCharge.
  do 3 wp_step.
  - wp_run. unfold wp. reflexivity.
  - apply (wp_emits (fun e => is_mustCharge e = false)); [ prog_auto | ].
    intros r HF H. exfalso. cbn [trace app] in H.
    destruct H as [H | H]; [ discriminate H | ].
    revert H. apply (Forall_false_not_In is_mustCharge); [ | reflexivity ].
    destruct r; cbn [val mach tick trace] in *. exact HF.
Qed.

Lemma loopSense_no_startCutter env :
  emits (fun e => is_startCutter e = false) (loopSense env).
Proof. prog_auto. Qed.

Lemma doLookForBWF_no_startCutter env :
  emits (fun e => is_startCutter e = false) (doLookForBWF env).
Proof. prog_auto. Qed.

(** The first call of [doLookForBWF] stops the cutter (line 389). *)
Lemma doLookForBWF_stops_cutter_first (env : Env) (n : nat) (m : Machine) :
  exists rest, trace (doLookForBWF env n m) = EvStopCutter :: rest.
Proof. eexists. reflexivity. Qed.

(** C2, as the sketch behaves.  In a cycle that dispatches [MOWING] and in
    which [mustCharge()] answers true, the state is [LOOKING_FOR_BWF] at the
    end of the cycle and nothing but the loop-time report follows the answer:
    no forward motion, no cutter command.  The cutter is stopped in the next
    cycle: if the debug collaborator leaves the state alone there, the first
    call of that cycle's handler is [stopCutter], and that cycle never starts
    the cutter. *)
Theorem mowing_mustCharge_transition (env : Env) (n : nat) (m : Machine) :
  debug_tryEnter env n (state m) = MOWING ->
  In (EvMustCharge true) (trace (loop env n m)) ->
  let r := loop env n m in
  state (mach r) = LOOKING_FOR_BWF /\
  (exists pre report,
     trace r = pre ++ EvMustCharge true :: report /\
     Forall (fun e => is_report e = true) report) /\
  (debug_tryEnter env (tick r) LOOKING_FOR_BWF = LOOKING_FOR_BWF ->
   let r' := loop env (tick r) (mach r) in
   let sense := loopSense env (S (tick r)) (set_state LOOKING_FOR_BWF (mach r)) in
   (exists rest,
      trace r' = EvTryEnterSetupDebugMode LOOKING_FOR_BWF LOOKING_FOR_BWF
                   :: trace sense ++ EvStopCutter :: rest) /\
   ~ In EvStartCutter (trace r')).
Proof.
  intros Hs Hin r.
  assert (Hne : MOWING <> SETUP_DEBUG) by discriminate.
  pose proof (loop_handler_event env n m MOWING is_mustCharge
                (EvMustCharge true) Hs Hne
                eq_refl eq_refl (loopSense_no_mustCharge env) eq_refl Hin) as Hh.
  destruct (loop_phases env n m MOWING Hs Hne) as (Htr & Hm & _).
  cbv zeta in Hh. cbn [dispatch] in Hh, Htr, Hm.
  rewrite (doMowing_mustCharge env _ _ Hh) in Htr, Hm.
  cbn [val mach tick trace] in Htr, Hm.
  assert (Hst : state (mach r) = LOOKING_FOR_BWF).
  { unfold r. rewrite Hm. reflexivity. }
  split; [ exact Hst | ]. split.
  - unfold r. rewrite Htr.
    match goal with
    | |- context [?a :: trace ?r0 ++ [?x] ++ trace ?r2] =>
        exists (a :: trace r0), (trace r2); split;
        [ reflexivity | apply loopReport_is_report ]
    end.
  - intros Hs' r' sense.
    assert (Hs2 : debug_tryEnter env (tick r) (state (mach r)) = LOOKING_FOR_BWF)
      by (rewrite Hst; exact Hs').
    assert (Hne' : LOOKING_FOR_BWF <> SETUP_DEBUG) by discriminate.
    destruct (loop_phases env (tick r) (mach r) LOOKING_FOR_BWF Hs2 Hne')
      as (Htr' & _ & _).
    fold r' sense in Htr'. cbn [dispatch] in Htr'. rewrite Hst in Htr'.
    destruct (doLookForBWF_stops_cutter_first env (tick sense) (mach sense))
      as (rest & Hrest).
    split.
    + rewrite Htr', Hrest. eexists. cbn [app]. reflexivity.
    + rewrite Htr'. intros Hx.
      destruct Hx as [Hx | Hx]; [ discriminate Hx | ].
      apply in_app_or in Hx. destruct Hx as [Hx | Hx].
      * revert Hx. apply (Forall_false_not_In is_startCutter);
          [ apply loopSense_no_startCutter | reflexivity ].
      * apply in_app_or in Hx. destruct Hx as [Hx | Hx].
        -- revert Hx. apply (Forall_false_not_In is_startCutter);
             [ apply doLookForBWF_no_startCutter | reflexivity ].
        -- revert Hx. apply (Forall_true_not_In is_report);
             [ apply loopReport_is_report | reflexivity ].
Qed.

Lemma mowing_mustCharge_transition_witness :
  state (mach (loop env_mustCharge 0%nat (bench_machine MOWING))) = LOOKING_FOR_BWF.
Proof.
  refine (proj1 (mowing_mustCharge_transition env_mustCharge 0%nat
                   (bench_machine MOWING) eq_refl _)).
  vm_compute. find_in.
Defined.

(** C2 as the claim words it fails: in this cycle the battery must charge and
    the state becomes [LOOKING_FOR_BWF], but no [stopCutter] is issued in the
    cycle. *)
Lemma mowing_mustCharge_cutter_not_stopped :
  let r := loop env_mustCharge 0%nat (bench_machine MOWING) in
  trace r
    = [EvTryEnterSetupDebugMode MOWING MOWING; EvMillis 60001;
       EvSensorSelect 0; EvIsOutOfBounds false;
       EvSensorSelect 1; EvIsOutOfBounds false;
       EvUpdateVoltage; EvMillis 60007; EvDisplayUpdate; EvMillis 60009;
       EvMustCharge true;
       EvSerialPrint (nl ++ nl ++ "looptime : "); EvMillis 60012;
       EvSerialPrintlnNum 11] /\
  state (mach r) = LOOKING_FOR_BWF /\
  ~ In EvStopCutter (trace r).
Proof.
  assert (E : trace (loop env_mustCharge 0%nat (bench_machine MOWING))
              = [EvTryEnterSetupDebugMode MOWING MOWING; EvMillis 60001;
                 EvSensorSelect 0; EvIsOutOfBounds false;
                 EvSensorSelect 1; EvIsOutOfBounds false;
                 EvUpdateVoltage; EvMillis 60007; EvDisplayUpdate; EvMillis 60009;
                 EvMustCharge true;
                 EvSerialPrint (nl ++ nl ++ "looptime : "); EvMillis 60012;
                 EvSerialPrintlnNum 11])
    by (vm_compute; reflexivity).
  cbv zeta. split; [ exact E | ]. split; [ vm_compute; reflexivity | ].
  rewrite E. intros H. in_cases H.
Qed.

(** ** Safety checks *)







(** A cycle with a tilt, call by call: the mower is mowing, its battery asks
    for a charge, the display is due. *)
Lemma loop_tilt_cycle_trace :
  trace (loop env_tilt 0%nat (bench_machine MOWING))
    = [EvTryEnterSetupDebugMode MOWING MOWING; EvMillis 60001;
       EvSensorSelect 0; EvIsOutOfBounds false;
       EvSensorSelect 1; EvIsOutOfBounds false;
       EvUpdateVoltage; EvMillis 60007; EvDisplayUpdate; EvMillis 60009;
       EvHasFlipped true;
       EvSerialPrint "Mower has flipped "; EvStopCutter; EvStop; EvErrorFlag 1;
       EvMustCharge true;
       EvSerialPrint (nl ++ nl ++ "looptime : "); EvMillis 60017;
       EvSerialPrintlnNum 16].
Proof. vm_compute. reflexivity. Qed.

(** ** Charging *)

(** C6 at the failing input.  The clock collaborator is configured and says
    at every call that it is not time to cut; the battery is full and the
    boundary signal is present.  The cycle never asks the clock and leaves
    [CHARGING] for [LAUNCHING]. *)
Theorem charging_launches_outside_clock_window :
  let r := loop env_clock_closed 0%nat (bench_machine CHARGING) in
  has_RTC_CLOCK (defs env_clock_closed) = true /\
  (forall k, clock_timeToCut env_clock_closed k = false) /\
  trace r
    = [EvTryEnterSetupDebugMode CHARGING CHARGING; EvMillis 60001;
       EvSensorSelect 0; EvIsOutOfBounds false;
       EvSensorSelect 1; EvIsOutOfBounds false;
       EvUpdateVoltage; EvMillis 60007; EvDisplayUpdate; EvMillis 60009;
       EvStop; EvStopCutter; EvIsBeingCharged true; EvMillis 60013;
       EvMillis 60014; EvIsFullyCharged true; EvIsInside true;
       EvSerialPrint (nl ++ nl ++ "looptime : "); EvMillis 60018;
       EvSerialPrintlnNum 17] /\
  state (mach r) = LAUNCHING.
Proof.
  cbv zeta. split; [ reflexivity | ]. split; [ intro k; reflexivity | ].
  split; vm_compute; reflexivity.
Qed.

(** ** Timers *)

Lemma loopSense_keeps_dockingTimers env : keeps dockingTimers (loopSense env).
Proof. prog_auto. Qed.

Lemma loopSense_keeps_lastContact env : keeps lastContact (loopSense env).
Proof. prog_auto. Qed.

Lemma loopSense_keeps_time_at_turning env : keeps time_at_turning (loopSense env).
Proof. prog_auto. Qed.

Lemma dispatch_keeps_dockingTimers env s :
  s <> DOCKING -> keeps dockingTimers (dispatch env s).
Proof. intros H. destruct s; try contradiction; prog_auto. Qed.

Lemma dispatch_keeps_lastContact env s :
  s <> CHARGING -> keeps lastContact (dispatch env s).
Proof. intros H. destruct s; try contradiction; prog_auto. Qed.

Lemma dispatch_keeps_time_at_turning env s :
  s = IDLE \/ s = DOCKING \/ s = CHARGING ->
  keeps time_at_turning (dispatch env s).
Proof. intros [-> | [-> | ->]]; prog_auto. Qed.

(** Lines 298-308: [doLaunching] always writes [time_at_turning], with a
    clock reading that it takes itself (in [randomTurn]). *)
Lemma doLaunching_sets_time_at_turning (env : Env) (n : nat) (m : Machine) :
  In (EvMillis (time_at_turning (mach (doLaunching env n m))))
     (trace (doLaunching env n m)).
Proof.
  wp_at (doLaunching env n m). unfold doLaunching, randomTurn. wp_run.
  all: unfold wp; find_in.
Qed.

(** *** Programs that are blind to some variables *)

Lemma blind_ret {A} u (a : A) : blind u (ret a).
Proof. intros n m. reflexivity. Qed.

Lemma blind_command u e : blind u (command e).
Proof. intros n m. reflexivity. Qed.

Lemma blind_query {A} u (ans : nat -> A) ev : blind u (query ans ev).
Proof. intros n m. reflexivity. Qed.

Lemma blind_modify u g : (forall m, g (u m) = u (g m)) -> blind u (modify g).
Proof. intros H n m. unfold modify, lift_res. cbn. rewrite H. reflexivity. Qed.

Lemma blind_bind {A B} u (p : M A) (f : A -> M B) :
  blind u p -> (forall a, blind u (f a)) -> blind u (bind p f).
Proof.
  intros Hp Hf n m. unfold bind. rewrite Hp. cbn [lift_res val mach tick trace].
  rewrite Hf. reflexivity.
Qed.

Lemma blind_bind_get {B} u (f : Machine -> M B) :
  (forall m, f (u m) = f m) -> (forall m, blind u (f m)) -> blind u (bind get f).
Proof.
  intros He Hf n m. unfold bind, get. cbn [val mach tick trace app].
  rewrite He, Hf. reflexivity.
Qed.

Ltac blind_step :=
  match goal with
  | |- blind _ (bind get _) =>
      apply blind_bind_get; [ intro; reflexivity | intro ]
  | |- blind _ (bind _ _) => apply blind_bind; [ | intro ]
  | |- blind _ (ret _) => apply blind_ret
  | |- blind _ (modify _) => apply blind_modify; intro; reflexivity
  | |- blind _ (command _) => apply blind_command
  | |- blind _ (query _ _) => apply blind_query
  | |- blind _ (if ?c then _ else _) => destruct c
  | |- blind _ (match ?x with _ => _ end) => destruct x
  end.

Ltac blind_auto :=
  unfold_calls;
  repeat first
    [ blind_step
    | progress unfold randomTurn, checkIfFlipped, checkIfLifted, turnToRelease,
        mowingSensor, doMowing, doLaunching, dockingTrack, dockingCollision,
        doDocking, doLookForBWF, doCharging, pollSensor, loopSense, dispatch,
        loopReport
    | progress unfold_calls ].

Lemma loopSense_blind_docking env c lc la lo :
  blind (with_docking c lc la lo) (loopSense env).
Proof. blind_auto. Qed.

Lemma dispatch_blind_docking env s c lc la lo :
  s <> DOCKING -> blind (with_docking c lc la lo) (dispatch env s).
Proof. intros H. destruct s; try contradiction; blind_auto. Qed.

Lemma loopSense_blind_lastContact env t : blind (set_lastContact t) (loopSense env).
Proof. blind_auto. Qed.

Lemma dispatch_blind_lastContact env s t :
  s <> CHARGING -> blind (set_lastContact t) (dispatch env s).
Proof. intros H. destruct s; try contradiction; blind_auto. Qed.

(** A cycle whose sensing phase and handler are blind to [u] is blind to [u]. *)
Lemma loop_blind (u : Machine -> Machine) (env : Env) (n : nat) (m : Machine)
    (s : MowerState) :
  (forall m', state (u m') = state m') ->
  (forall m', set_state s (u m') = u (set_state s m')) ->
  blind u (loopSense env) ->
  blind u (dispatch env s) ->
  debug_tryEnter env n (state m) = s ->
  s <> SETUP_DEBUG ->
  trace (loop env n (u m)) = trace (loop env n m) /\
  mach (loop env n (u m)) = u (mach (loop env n m)).
Proof.
  intros Hst Hcomm Hsense Hdisp Hs Hne.
  assert (Hs' : debug_tryEnter env n (state (u m)) = s) by (rewrite Hst; exact Hs).
  destruct (loop_phases env n m s Hs Hne) as (Htr & Hm & _).
  destruct (loop_phases env n (u m) s Hs' Hne) as (Htr' & Hm' & _).
  cbv zeta in Htr, Hm, Htr', Hm'.
  rewrite Hcomm, Hsense in Htr', Hm'.
  cbn [lift_res val mach tick trace] in Htr', Hm'.
  rewrite Hdisp in Htr', Hm'.
  cbn [lift_res val mach tick trace] in Htr', Hm'.
  rewrite Htr', Hm', Htr, Hm, Hst. split; reflexivity.
Qed.

(** *** The owner's cycles *)

(** What a run of [doDocking] can do to its statics: a timer keeps its value
    or takes a clock reading of the run; the counter keeps its value, or takes
    the value that the run prints at a collision, or is 0 after the escape
    turn. *)
Lemma doDocking_timers (env : Env) (n : nat) (m : Machine) :
  let r := doDocking env n m in
  (lastCollision (mach r) = lastCollision m \/
   In (EvMillis (lastCollision (mach r))) (trace r)) /\
  (lastAllOutsideCheck (mach r) = lastAllOutsideCheck m \/
   In (EvMillis (lastAllOutsideCheck (mach r))) (trace r)) /\
  (lastOutside (mach r) = lastOutside m \/
   In (EvMillis (lastOutside (mach r))) (trace r)) /\
  (collisionCount (mach r) = collisionCount m \/
   In (EvSerialPrintlnNum (collisionCount (mach r))) (trace r) \/
   (collisionCount (mach r) = 0 /\ In (EvTurnRight 70) (trace r))).
Proof.
  cbv zeta. wp_at (doDocking env n m).
  unfold doDocking, dockingCollision, dockingTrack. wp_run.
  all: unfold wp; cbn [mach trace].
  all: repeat split.
  all: first [ left; reflexivity
             | right; solve [ find_in ]
             | right; left; solve [ find_in ]
             | right; right; split; [ reflexivity | solve [ find_in ] ] ].
Qed.

(** What a run of [doCharging] can do to [lastContact]. *)
Lemma doCharging_lastContact (env : Env) (n : nat) (m : Machine) :
  let r := doCharging env n m in
  lastContact (mach r) = lastContact m \/
  In (EvMillis (lastContact (mach r))) (trace r).
Proof.
  cbv zeta. wp_at (doCharging env n m). unfold doCharging. wp_run.
  all: unfold wp; cbn [mach trace].
  all: first [ left; reflexivity | right; solve [ find_in ] ].
Qed.

(** *** The turn timer *)

Lemma mowingSensor_no_backing_delay env i :
  emits (fun e => is_backing_delay e = false) (mowingSensor env i).
Proof. prog_auto. Qed.

Lemma mowingSensor_time (env : Env) (i : ORIENTATION) (n : nat) (m : Machine) :
  let r := mowingSensor env i n m in
  time_at_turning (mach r) = time_at_turning m \/
  In (EvMillis (time_at_turning (mach r))) (trace r).
Proof.
  cbv zeta. wp_at (mowingSensor env i n m).
  unfold mowingSensor, turnToRelease. destruct i; wp_run.
  all: unfold wp; cbn [mach trace].
  all: first [ left; reflexivity | right; solve [ find_in ] ].
Qed.

(** Membership in the tail of a list that ends with appended traces. *)
Ltac in_tail H :=
  repeat first
    [ exact H
    | apply in_cons
    | apply in_or_app; left; exact H
    | apply in_or_app; right ].

(** Lines 236-238 and 278: [doMowing] reads [time_at_turning] to decide the
    periodic turn and writes it after a turn. *)
Lemma doMowing_turn_timer (env : Env) (n : nat) (m : Machine) :
  In (EvMustCharge false) (trace (doMowing env n m)) ->
  exists t rest,
    trace (doMowing env n m) = EvMustCharge false :: EvMillis t :: rest /\
    (In (EvDelay 2000) rest <->
     TURN_INTERVAL (defs env) < elapsed t (time_at_turning m)) /\
    (In (EvDelay 2000) rest ->
     In (EvMillis (time_at_turning (mach (doMowing env n m)))) rest).
Proof.
  wp_at (doMowing env n m). unfold doMowing, Battery_mustCharge.
  do 3 wp_step.
  - wp_run. unfold wp. intros H. in_cases H.
  - unfold_calls. unfold randomTurn. unfold_calls. do 5 wp_step.
    wp_step; wp_run.
    all: wp_call; wp_step; wp_call; wp_run.
    all: unfold wp; cbn [mach trace]; intros _; gt_norm.
    all: eexists _, _; split; [ reflexivity | ].
    all: match goal with
         | |- context [mowingSensor ?e RIGHT ?k2 (mach (mowingSensor ?e LEFT ?k1 ?m1))] =>
             pose proof (mowingSensor_time e LEFT k1 m1) as HL;
             pose proof (mowingSensor_time e RIGHT k2 (mach (mowingSensor e LEFT k1 m1))) as HR;
             pose proof (mowingSensor_no_backing_delay e LEFT k1 m1) as NL;
             pose proof (mowingSensor_no_backing_delay e RIGHT k2
                           (mach (mowingSensor e LEFT k1 m1))) as NR;
             cbv zeta in HL, HR;
             set (sl := mowingSensor e LEFT k1 m1) in *;
             set (sr := mowingSensor e RIGHT k2 (mach sl)) in *
         end.
    all: cbn [time_at_turning set_time_at_turning] in HL.
    all: split; [ split | ].
    (* the turn was made *)
    all: try (intros _; assumption).
    all: try (intros _; solve [ find_in ]).
    all: try (intros _; destruct HR as [HR | HR];
              [ rewrite HR; destruct HL as [HL | HL];
                [ rewrite HL; solve [ find_in ] | in_tail HL ]
              | in_tail HR ]; fail).
    (* no turn: the backing delay is nowhere *)
    all: try (intros Hx; exfalso;
              apply in_app_or in Hx; destruct Hx as [Hx | Hx];
              [ revert Hx; apply (Forall_false_not_In is_backing_delay);
                [ exact NL | reflexivity ] | ];
              apply in_app_or in Hx; destruct Hx as [Hx | Hx];
              [ revert Hx; apply (Forall_false_not_In is_backing_delay);
                [ exact NR | reflexivity ] | ];
              in_cases Hx; fail).
    all: intros Hx; lia.
Qed.

(** Lines 397-399: the same for [doLookForBWF]. *)
Lemma doLookForBWF_turn_timer (env : Env) (n : nat) (m : Machine) :
  sensor_get (sensorOutside m) LEFT = false ->
  exists t rest,
    trace (doLookForBWF env n m) = EvStopCutter :: EvMillis t :: rest /\
    (In (EvDelay 2000) rest <->
     TURN_INTERVAL (defs env) < elapsed t (time_at_turning m)) /\
    (In (EvDelay 2000) rest ->
     In (EvMillis (time_at_turning (mach (doLookForBWF env n m)))) rest).
Proof.
  intros Hin. cbn [sensor_get] in Hin.
  wp_at (doLookForBWF env n m). unfold doLookForBWF, randomTurn. wp_run.
  all: unfold wp; cbn [mach trace]; try congruence; gt_norm.
  all: eexists _, _; split; [ reflexivity | ].
  all: split; [ split | ].
  all: try (intros _; assumption).
  all: try (intros _; solve [ find_in ]).
  all: try (intros Hx; in_cases Hx; fail).
  all: intros Hx; lia.
Qed.

(** C8, as the sketch behaves.  In a cycle dispatched in state [s], with
    [sense] its sensing phase and [h] the run of its handler:

    - the statics of [doDocking] (three timers and the collision counter)
      are private to the cycles of [DOCKING], and [lastContact] to those of
      [CHARGING]: a cycle of another state does not write them and does not
      read them (started with other values, it makes the same calls and ends
      on the same machine, with those values untouched);
    - they are never reset, neither on entry (the cycle that enters the state
      is a cycle of another state) nor in a cycle of the owner, the last one
      included: there a timer keeps its value or takes a clock reading of the
      handler, and the counter keeps its value, takes the value printed at a
      collision, or is 0 after the escape turn;
    - [time_at_turning] is shared: [MOWING] and [LOOKING_FOR_BWF] read it to
      decide the periodic turn (the turn that backs up for two seconds) and
      store a clock reading of the handler in it after the turn, [LAUNCHING]
      always stores one, and [IDLE], [DOCKING] and [CHARGING] leave it
      alone. *)
Theorem timers_private_not_reset (env : Env) (n : nat) (m : Machine) (s : MowerState) :
  debug_tryEnter env n (state m) = s ->
  s <> SETUP_DEBUG ->
  let r := loop env n m in
  let sense := loopSense env (S n) (set_state s m) in
  let h := dispatch env s (tick sense) (mach sense) in
  (s <> DOCKING -> dockingTimers (mach r) = dockingTimers m) /\
  (s <> CHARGING -> lastContact (mach r) = lastContact m) /\
  (s = IDLE \/ s = DOCKING \/ s = CHARGING ->
   time_at_turning (mach r) = time_at_turning m) /\
  (s = LAUNCHING -> In (EvMillis (time_at_turning (mach r))) (trace r)) /\
  (s <> DOCKING ->
   forall c lc la lo,
     trace (loop env n (with_docking c lc la lo m)) = trace r /\
     mach (loop env n (with_docking c lc la lo m))
       = with_docking c lc la lo (mach r)) /\
  (s <> CHARGING ->
   forall t,
     trace (loop env n (set_lastContact t m)) = trace r /\
     mach (loop env n (set_lastContact t m)) = set_lastContact t (mach r)) /\
  (s = DOCKING ->
   (lastCollision (mach r) = lastCollision m \/
    In (EvMillis (lastCollision (mach r))) (trace h)) /\
   (lastAllOutsideCheck (mach r) = lastAllOutsideCheck m \/
    In (EvMillis (lastAllOutsideCheck (mach r))) (trace h)) /\
   (lastOutside (mach r) = lastOutside m \/
    In (EvMillis (lastOutside (mach r))) (trace h)) /\
   (collisionCount (mach r) = collisionCount m \/
    In (EvSerialPrintlnNum (collisionCount (mach r))) (trace h) \/
    (collisionCount (mach r) = 0 /\ In (EvTurnRight 70) (trace h)))) /\
  (s = CHARGING ->
   lastContact (mach r) = lastContact m \/
   In (EvMillis (lastContact (mach r))) (trace h)) /\
  (s = MOWING ->
   In (EvMustCharge false) (trace h) ->
   exists t rest,
     trace h = EvMustCharge false :: EvMillis t :: rest /\
     (In (EvDelay 2000) rest <->
      TURN_INTERVAL (defs env) < elapsed t (time_at_turning m)) /\
     (In (EvDelay 2000) rest ->
      In (EvMillis (time_at_turning (mach r))) rest)) /\
  (s = LOOKING_FOR_BWF ->
   sensor_get (sensorOutside (mach sense)) LEFT = false ->
   exists t rest,
     trace h = EvStopCutter :: EvMillis t :: rest /\
     (In (EvDelay 2000) rest <->
      TURN_INTERVAL (defs env) < elapsed t (time_at_turning m)) /\
     (In (EvDelay 2000) rest ->
      In (EvMillis (time_at_turning (mach r))) rest)).
Proof.
  intros Hs Hne r sense h.
  destruct (loop_phases env n m s Hs Hne) as (Htr & Hm & _).
  cbv zeta in Htr, Hm. fold r sense in Htr, Hm. fold h in Htr, Hm.
  assert (Kd : dockingTimers (mach sense) = dockingTimers m)
    by exact (loopSense_keeps_dockingTimers env (S n) (set_state s m)).
  assert (Kc : lastContact (mach sense) = lastContact m)
    by exact (loopSense_keeps_lastContact env (S n) (set_state s m)).
  assert (Kt : time_at_turning (mach sense) = time_at_turning m)
    by exact (loopSense_keeps_time_at_turning env (S n) (set_state s m)).
  assert (K1 : collisionCount (mach sense) = collisionCount m)
    by exact (f_equal (fun q => fst (fst (fst q))) Kd).
  assert (K2 : lastCollision (mach sense) = lastCollision m)
    by exact (f_equal (fun q => snd (fst (fst q))) Kd).
  assert (K3 : lastAllOutsideCheck (mach sense) = lastAllOutsideCheck m)
    by exact (f_equal (fun q => snd (fst q)) Kd).
  assert (K4 : lastOutside (mach sense) = lastOutside m)
    by exact (f_equal (fun q => snd q) Kd).
  rewrite Hm.
  split; [ | split; [ | split; [ | split; [ | split; [ | split;
    [ | split; [ | split; [ | split ] ] ] ] ] ] ] ].
  - intros H. unfold h. rewrite (dispatch_keeps_dockingTimers env s H).
    exact Kd.
  - intros H. unfold h. rewrite (dispatch_keeps_lastContact env s H). exact Kc.
  - intros H. unfold h. rewrite (dispatch_keeps_time_at_turning env s H).
    exact Kt.
  - intros ->. rewrite Htr. cbn [dispatch] in h |- *. right.
    apply in_or_app. right. apply in_or_app. left.
    apply doLaunching_sets_time_at_turning.
  - intros H c lc la lo. rewrite <- Hm.
    apply (loop_blind (with_docking c lc la lo) env n m s); try assumption.
    + reflexivity.
    + reflexivity.
    + apply loopSense_blind_docking.
    + apply dispatch_blind_docking. exact H.
  - intros H t. rewrite <- Hm.
    apply (loop_blind (set_lastContact t) env n m s); try assumption.
    + reflexivity.
    + reflexivity.
    + apply loopSense_blind_lastContact.
    + apply dispatch_blind_lastContact. exact H.
  - intros ->. cbn [dispatch] in h.
    pose proof (doDocking_timers env (tick sense) (mach sense)) as Hd.
    cbv zeta in Hd. fold h in Hd. rewrite K1, K2, K3, K4 in Hd. exact Hd.
  - intros ->. cbn [dispatch] in h.
    pose proof (doCharging_lastContact env (tick sense) (mach sense)) as Hc.
    cbv zeta in Hc. fold h in Hc. rewrite Kc in Hc. exact Hc.
  - intros -> Hin. cbn [dispatch] in h.
    pose proof (doMowing_turn_timer env (tick sense) (mach sense) Hin) as Ht.
    fold h in Ht. rewrite Kt in Ht. exact Ht.
  - intros -> Hin. cbn [dispatch] in h.
    pose proof (doLookForBWF_turn_timer env (tick sense) (mach sense) Hin) as Ht.
    fold h in Ht. rewrite Kt in Ht. exact Ht.
Qed.

Lemma timers_private_not_reset_witness :
  dockingTimers (mach (loop env_outside 0%nat machine_after_docking))
    = dockingTimers machine_after_docking.
Proof.
  refine (proj1 (timers_private_not_reset env_outside 0%nat machine_after_docking
                   LOOKING_FOR_BWF eq_refl _) _); discriminate.
Defined.

(** C8 as the claim words it fails: the first cycle enters [DOCKING] from
    [LOOKING_FOR_BWF] and leaves the docking timers at the values of the
    earlier visit; in the next cycle, the first one of this visit, the stale
    [lastOutside] makes the boundary-lost test of line 376 succeed, and the
    mower turns left and goes back to [LOOKING_FOR_BWF]. *)
Lemma docking_entered_with_stale_timers :
  let r1 := loop env_brief_outside 0%nat machine_after_docking in
  let r2 := loop env_brief_outside (tick r1) (mach r1) in
  state machine_after_docking = LOOKING_FOR_BWF /\
  state (mach r1) = DOCKING /\
  dockingTimers (mach r1) = (2, 30000, 30500, 30000) /\
  dockingTimers (mach r1) = dockingTimers machine_after_docking /\
  In (EvTurnLeft 30) (trace r2) /\
  state (mach r2) = LOOKING_FOR_BWF.
Proof.
  cbv zeta. repeat split; try (vm_compute; reflexivity).
  vm_compute. find_in.
Qed.

(** * Further properties of the sketch *)

Lemma wp_keeps {A X} (f : Machine -> X) (p : M A) n m (Q : Res A -> Prop) :
  keeps f p -> (forall r, f (mach r) = f m -> Q r) -> wp p n m Q.
Proof. intros Hp HQ. apply HQ. apply Hp. Qed.

Lemma suffix_app (l1 l2 s : list Event) :
  (exists pre, l2 = pre ++ s) -> exists pre, l1 ++ l2 = pre ++ s.
Proof. intros [pre ->]. exists (l1 ++ pre). apply app_assoc. Qed.

Ltac find_suffix_app :=
  repeat first [ apply suffix_here | apply suffix_later | apply suffix_app ].

(** ** The state machine *)

Lemma randomTurn_keeps_state env b : keeps state (randomTurn env b).
Proof. prog_auto. Qed.

Lemma mowingSensor_keeps_state env i : keeps state (mowingSensor env i).
Proof. prog_auto. Qed.

Lemma dockingTrack_state (env : Env) (n : nat) (m : Machine) :
  state (mach (dockingTrack env n m)) = state m \/
  state (mach (dockingTrack env n m)) = LOOKING_FOR_BWF.
Proof.
  wp_at (dockingTrack env n m). unfold dockingTrack. wp_run.
  all: unfold wp; auto.
Qed.

(** What a handler can do to [state]. *)
Lemma dispatch_state (env : Env) (s : MowerState) (n : nat) (m : Machine) :
  state m = s ->
  s <> SETUP_DEBUG ->
  may_follow s (state (mach (dispatch env s n m))) = true.
Proof.
  intros Hs Hne. destruct s; cbn [dispatch].
  - (* IDLE *) cbn. rewrite Hs. reflexivity.
  - (* MOWING *)
    wp_at (doMowing env n m). unfold doMowing, Battery_mustCharge.
    do 3 wp_step; [ wp_run; reflexivity | ].
    apply (wp_keeps state); [ prog_auto | ].
    intros r Hr. cbn [mach]. rewrite Hr, Hs. reflexivity.
  - (* LAUNCHING *)
    wp_at (doLaunching env n m). unfold doLaunching, randomTurn. wp_run.
    all: reflexivity.
  - (* DOCKING *)
    wp_at (doDocking env n m). unfold doDocking, dockingCollision. wp_run.
    all: unfold wp; cbn [mach]; try reflexivity.
    all: try (rewrite Hs; reflexivity).
    all: match goal with
         | |- context [dockingTrack ?e ?k ?m'] =>
             destruct (dockingTrack_state e k m') as [E | E]; rewrite E;
             cbn [state set_lastOutside set_collisionCount set_lastCollision];
             try rewrite Hs; reflexivity
         end.
  - (* LOOKING_FOR_BWF *)
    wp_at (doLookForBWF env n m). unfold doLookForBWF. do 4 wp_step.
    wp_step; [ wp_run; reflexivity | ].
    apply (wp_keeps state); [ prog_auto | ].
    intros r Hr. cbn [mach]. rewrite Hr, Hs. reflexivity.
  - (* CHARGING *)
    wp_at (doCharging env n m). unfold doCharging. wp_run.
    all: unfold wp; cbn [mach]; try rewrite Hs; reflexivity.
  - (* SETUP_DEBUG *) contradiction.
Qed.

Lemma loop_transition_aux (env : Env) (n : nat) (m : Machine) (s : MowerState) :
  debug_tryEnter env n (state m) = s ->
  s <> SETUP_DEBUG ->
  may_follow s (state (mach (loop env n m))) = true.
Proof.
  intros Hs Hne.
  destruct (loop_phases env n m s Hs Hne) as (_ & Hm & _).
  cbv zeta in Hm. rewrite Hm.
  apply dispatch_state; [ | exact Hne ].
  rewrite (loopSense_keeps_state env (S n) (set_state s m)). reflexivity.
Qed.

(** One cycle of [loop] that is dispatched in state [s] ends in a state that
    the state machine allows after [s]: [IDLE] stays; [MOWING] stays or goes
    to [LOOKING_FOR_BWF]; [LAUNCHING] goes to [MOWING]; [DOCKING] stays or
    goes to [CHARGING] or [LOOKING_FOR_BWF]; [LOOKING_FOR_BWF] stays or goes
    to [DOCKING]; [CHARGING] stays or goes to [LAUNCHING]. *)
Theorem loop_transition (env : Env) (n : nat) (m : Machine) (s : MowerState) :
  debug_tryEnter env n (state m) = s ->
  s <> SETUP_DEBUG ->
  may_follow s (state (mach (loop env n m))) = true.
Proof.
  intros Hs Hne.
  destruct (loop_phases env n m s Hs Hne) as (_ & Hm & _).
  cbv zeta in Hm. rewrite Hm.
  apply dispatch_state; [ | exact Hne ].
  rewrite (loopSense_keeps_state env (S n) (set_state s m)). reflexivity.
Qed.

Lemma loop_transition_witness :
  may_follow MOWING (state (mach (loop env_quiet 0%nat (bench_machine MOWING)))) = true.
Proof.
  apply (loop_transition env_quiet 0%nat (bench_machine MOWING) MOWING).
  - reflexivity.
  - discriminate.
Defined.

(** ** The cutter *)

Lemma dispatch_no_startCutter env s :
  s <> MOWING -> emits (fun e => is_startCutter e = false) (dispatch env s).
Proof. intros H. destruct s; try contradiction; prog_auto. Qed.

Lemma doMowing_startCutter (env : Env) (n : nat) (m : Machine) :
  In EvStartCutter (trace (doMowing env n m)) ->
  In (EvMustCharge false) (trace (doMowing env n m)).
Proof.
  wp_at (doMowing env n m). unfold doMowing, Battery_mustCharge.
  do 3 wp_step.
  - wp_run. unfold wp. intros H. in_cases H.
  - unfold wp. cbn [trace app]. intros _. left. reflexivity.
Qed.

Lemma loop_trace_setup_debug (env : Env) (n : nat) (m : Machine) :
  debug_tryEnter env n (state m) = SETUP_DEBUG ->
  trace (loop env n m) = [EvTryEnterSetupDebugMode (state m) SETUP_DEBUG].
Proof.
  intros H. wp_at (loop env n m).
  unfold loop, SetupAndDebug_tryEnterSetupDebugMode.
  do 5 wp_step. rewrite H. cbn [MowerState_eqb]. wp_run. reflexivity.
Qed.

(** The cutter is started only by the mowing handler: a cycle of [loop] that
    calls [startCutter] was dispatched in [MOWING] and its battery did not
    ask for a charge.  No other state, and neither safety check, ever turns
    the cutter on. *)
Theorem cutter_started_only_when_mowing (env : Env) (n : nat) (m : Machine) :
  In EvStartCutter (trace (loop env n m)) ->
  debug_tryEnter env n (state m) = MOWING /\
  In (EvMustCharge false) (trace (loop env n m)).
Proof.
  intros Hin.
  destruct (debug_tryEnter env n (state m)) eqn:Hs.
  7: { rewrite (loop_trace_setup_debug env n m Hs) in Hin. in_cases Hin. }
  all: match type of Hs with
       | _ = ?s =>
           assert (Hne : s <> SETUP_DEBUG) by discriminate;
           pose proof (loop_handler_event env n m s is_startCutter EvStartCutter
                         Hs Hne eq_refl eq_refl (loopSense_no_startCutter env)
                         eq_refl Hin) as Hh;
           cbv zeta in Hh
       end.
  2: { split; [ reflexivity | ].
       destruct (loop_phases env n m MOWING Hs Hne) as (Htr & _ & _).
       cbv zeta in Htr. rewrite Htr. right.
       apply in_or_app. right. apply in_or_app. left.
       cbn [dispatch] in Hh |- *. apply doMowing_startCutter. exact Hh. }
  all: exfalso; revert Hh; apply (Forall_false_not_In is_startCutter);
    [ apply dispatch_no_startCutter; discriminate | reflexivity ].
Qed.

Lemma cutter_started_only_when_mowing_witness :
  debug_tryEnter env_quiet 0%nat (state (bench_machine MOWING)) = MOWING.
Proof.
  refine (proj1 (cutter_started_only_when_mowing env_quiet 0%nat
                   (bench_machine MOWING) _)).
  vm_compute. find_in.
Defined.

(** Lines 236-294: a run of [doMowing] in which the battery does not ask for
    a charge ends with the drive calls, and leaves [state] alone. *)
Lemma doMowing_drive (env : Env) (n : nat) (m : Machine) :
  In (EvMustCharge false) (trace (doMowing env n m)) ->
  state (mach (doMowing env n m)) = state m /\
  exists pre, trace (doMowing env n m) = pre ++ mowing_drive (defs env).
Proof.
  wp_at (doMowing env n m). unfold doMowing, Battery_mustCharge.
  do 3 wp_step.
  - wp_run. unfold wp. intros H. in_cases H.
  - unfold_calls. do 6 wp_step; [ wp_call | wp_step ].
    all: wp_step; wp_call; wp_step; wp_call; wp_run.
    all: unfold wp; intros _; split.
    all: try (rewrite !mowingSensor_keeps_state, ?randomTurn_keeps_state;
              reflexivity).
    all: unfold mowing_drive; rewrite ?app_nil_l; find_suffix_app.
Qed.

(** A cycle dispatched in [MOWING] whose battery does not ask for a charge
    stays in [MOWING] and ends, before the loop-time report, with the obstacle
    check, [startCutter], the forward ramp and the two speed compensations,
    whatever boundary escapes and turns came before. *)
Theorem mowing_cycle_drives (env : Env) (n : nat) (m : Machine) :
  debug_tryEnter env n (state m) = MOWING ->
  In (EvMustCharge false) (trace (loop env n m)) ->
  state (mach (loop env n m)) = MOWING /\
  exists pre report,
    trace (loop env n m) = pre ++ mowing_drive (defs env) ++ report /\
    Forall (fun e => is_report e = true) report.
Proof.
  intros Hs Hin.
  assert (Hne : MOWING <> SETUP_DEBUG) by discriminate.
  pose proof (loop_handler_event env n m MOWING is_mustCharge
                (EvMustCharge false) Hs Hne
                eq_refl eq_refl (loopSense_no_mustCharge env) eq_refl Hin) as Hh.
  destruct (loop_phases env n m MOWING Hs Hne) as (Htr & Hm & _).
  pose proof (loopSense_keeps_state env (S n) (set_state MOWING m)) as Hk.
  cbv zeta in Hh. cbn [dispatch state set_state] in Hh, Htr, Hm, Hk.
  destruct (doMowing_drive env _ _ Hh) as (Hst & pre & Hpre).
  rewrite Hm. split; [ rewrite Hst; exact Hk | ].
  rewrite Htr, Hpre.
  match goal with
  | |- context [?a :: trace ?r0 ++ (pre ++ ?mid) ++ trace ?r2] =>
      exists (a :: trace r0 ++ pre), (trace r2); split;
      [ generalize (trace r0), (trace r2), mid; intros l0 l2 lm;
        cbn [app]; rewrite <- !app_assoc; reflexivity
      | apply loopReport_is_report ]
  end.
Qed.

Lemma mowing_cycle_drives_witness :
  state (mach (loop env_quiet 0%nat (bench_machine MOWING))) = MOWING.
Proof.
  refine (proj1 (mowing_cycle_drives env_quiet 0%nat (bench_machine MOWING)
                   eq_refl _)).
  vm_compute. find_in.
Defined.

(** ** setup: the initial state *)

Lemma MowerState_eqb_true (a b : MowerState) : MowerState_eqb a b = true -> a = b.
Proof. destruct a, b; intros H; try reflexivity; discriminate H. Qed.

(** After its sixteen start-up calls [setup] polls the debug collaborator
    once, with [IDLE], and clears the display; the answer [d] of that poll
    decides the rest.  When [d] is [SETUP_DEBUG], [setup] ends there, in
    [SETUP_DEBUG], and the battery is not queried.  Otherwise it asks the
    battery once: with the charging contact closed the state is [CHARGING]
    and stopping the cutter is the last call, with the contact open the
    state is [MOWING] and nothing more is called.  The state before [setup]
    and which other state the debug collaborator answered do not matter. *)
Theorem setup_initial_state (env : Env) (n : nat) (m : Machine) :
  let r := setup env n m in
  let d := debug_tryEnter env (16 + n) IDLE in
  let c := battery_isBeingCharged env (18 + n) in
  exists rest,
    trace r = setup_prologue (defs env)
                ++ EvTryEnterSetupDebugMode IDLE d :: EvDisplayClear :: rest /\
    if MowerState_eqb d SETUP_DEBUG then
      state (mach r) = SETUP_DEBUG /\ rest = []
    else
      rest = EvIsBeingCharged c :: (if c then [EvStopCutter] else []) /\
      state (mach r) = (if c then CHARGING else MOWING).
Proof.
  cbv zeta. cbn [Nat.add]. wp_at (setup env n m). unfold setup. wp_run.
  all: unfold wp; cbn [mach trace state]; eexists.
  all: split; [ unfold setup_prologue; cbn [app]; reflexivity | ].
  - apply MowerState_eqb_true in Heqb. split; [ exact Heqb | reflexivity ].
  - split; reflexivity.
  - split; reflexivity.
Qed.

(** ** Launching *)

(** Lines 298-308 with [randomTurn(false)] of lines 183-198. *)
Lemma doLaunching_calls (env : Env) (n : nat) (m : Machine) :
  state (mach (doLaunching env n m)) = MOWING /\
  exists a r t,
    trace (doLaunching env n m) = launch_calls (defs env) a r t /\
    time_at_turning (mach (doLaunching env n m)) = t.
Proof.
  wp_at (doLaunching env n m). unfold doLaunching, randomTurn. wp_run.
  all: unfold wp; split; [ reflexivity | ].
  all: match goal with
       | |- context [EvRandom 90 160 ?A :: EvRandom 0 100 ?R :: _
                       :: EvMillis ?T :: _] => exists A, R, T
       end.
  all: unfold launch_calls; rewrite Heqb; split; reflexivity.
Qed.

(** A cycle dispatched in [LAUNCHING] always ends in [MOWING].  After the
    sensing phase its handler backs off the dock for five seconds, stops,
    makes one random turn (to the right when the second random number is
    even, to the left otherwise, without backing up first), stores the clock
    reading taken after the turn in [time_at_turning], drives forward and
    resets the battery voltage; only the loop-time report follows. *)
Theorem launching_cycle (env : Env) (n : nat) (m : Machine) :
  debug_tryEnter env n (state m) = LAUNCHING ->
  let sense := loopSense env (S n) (set_state LAUNCHING m) in
  state (mach (loop env n m)) = MOWING /\
  exists a r t report,
    trace (loop env n m)
      = EvTryEnterSetupDebugMode (state m) LAUNCHING
          :: trace sense ++ launch_calls (defs env) a r t ++ report /\
    time_at_turning (mach (loop env n m)) = t /\
    Forall (fun e => is_report e = true) report.
Proof.
  intros Hs sense.
  assert (Hne : LAUNCHING <> SETUP_DEBUG) by discriminate.
  destruct (loop_phases env n m LAUNCHING Hs Hne) as (Htr & Hm & _).
  cbv zeta in Htr, Hm. fold sense in Htr, Hm. cbn [dispatch] in Htr, Hm.
  destruct (doLaunching_calls env (tick sense) (mach sense))
    as (Hst & a & r & t & Hl & Ht).
  rewrite Hm. split; [ exact Hst | ].
  rewrite Htr, Hl. exists a, r, t. eexists.
  split; [ reflexivity | ]. split; [ exact Ht | apply loopReport_is_report ].
Qed.

Lemma launching_cycle_witness :
  state (mach (loop env_quiet 0%nat (bench_machine LAUNCHING))) = MOWING.
Proof.
  exact (proj1 (launching_cycle env_quiet 0%nat (bench_machine LAUNCHING) eq_refl)).
Defined.

(** ** Charging: launch and re-dock *)

Lemma loopSense_no_launch_query env :
  emits (fun e => is_launch_query e = false) (loopSense env).
Proof. prog_auto. Qed.

(** Lines 427-437: when [doCharging] sets [LAUNCHING]. *)
Lemma doCharging_launch (env : Env) (n : nat) (m : Machine) :
  state m = CHARGING ->
  let tr := trace (doCharging env n m) in
  state (mach (doCharging env n m)) = LAUNCHING <->
  In (EvIsFullyCharged true) tr /\
  (has_RTC__CLOCK (defs env) = true -> In (EvTimeToCut true) tr) /\
  (In (EvIsInside true) tr \/ In (EvIsOutside true) tr).
Proof.
  intros Hs. cbv zeta. wp_at (doCharging env n m). unfold doCharging. wp_run.
  all: unfold wp; cbn [mach]; split.
  all: try (intros Hl; rewrite Hs in Hl; discriminate Hl).
  all: try (intros _; reflexivity).
  all: try (intros _; split; [ find_in | ];
            split; [ first [ intros Hx; discriminate Hx | intros _; find_in ] | ];
            first [ left; solve [ find_in ] | right; solve [ find_in ] ]).
  all: intros (H1 & H2 & H3); exfalso.
  all: try (in_cases H1; fail).
  all: try (specialize (H2 eq_refl); in_cases H2; fail).
  all: destruct H3 as [H3 | H3]; in_cases H3.
Qed.

(** A cycle dispatched in [CHARGING] ends in [LAUNCHING] exactly when the
    battery answered that it is fully charged, the clock (if the macro
    [__RTC__CLOCK__] compiles its test in) answered that it is time to cut,
    and the boundary sensor answered inside or outside; otherwise the state
    stays [CHARGING]. *)
Theorem charging_launch_condition (env : Env) (n : nat) (m : Machine) :
  debug_tryEnter env n (state m) = CHARGING ->
  let tr := trace (loop env n m) in
  (state (mach (loop env n m)) = LAUNCHING <->
   In (EvIsFullyCharged true) tr /\
   (has_RTC__CLOCK (defs env) = true -> In (EvTimeToCut true) tr) /\
   (In (EvIsInside true) tr \/ In (EvIsOutside true) tr)) /\
  (state (mach (loop env n m)) <> LAUNCHING ->
   state (mach (loop env n m)) = CHARGING).
Proof.
  intros Hs tr.
  assert (Hne : CHARGING <> SETUP_DEBUG) by discriminate.
  destruct (loop_phases env n m CHARGING Hs Hne) as (Htr & Hm & _).
  pose proof (loopSense_keeps_state env (S n) (set_state CHARGING m)) as Hk.
  cbv zeta in Htr, Hm. cbn [dispatch state set_state] in Htr, Hm, Hk.
  pose proof (doCharging_launch env
                (tick (loopSense env (S n) (set_state CHARGING m))) _ Hk) as Hl.
  cbv zeta in Hl.
  assert (Hup : forall e, In e (trace (doCharging env
                   (tick (loopSense env (S n) (set_state CHARGING m)))
                   (mach (loopSense env (S n) (set_state CHARGING m))))) ->
                 In e tr).
  { intros e He. unfold tr. rewrite Htr. right.
    apply in_or_app. right. apply in_or_app. left. exact He. }
  assert (Hdown : forall e, is_launch_query e = true -> In e tr ->
                 In e (trace (doCharging env
                   (tick (loopSense env (S n) (set_state CHARGING m)))
                   (mach (loopSense env (S n) (set_state CHARGING m)))))).
  { intros e He Hin.
    assert (Hrep : is_report e = false) by (destruct e; try discriminate He; reflexivity).
    exact (loop_handler_event env n m CHARGING is_launch_query e Hs Hne He
             eq_refl (loopSense_no_launch_query env) Hrep Hin). }
  split.
  - rewrite Hm, Hl. split.
    + intros (H1 & H2 & [H3 | H3]); repeat split; auto.
    + intros (H1 & H2 & H3). split; [ apply Hdown; [ reflexivity | exact H1 ] | ].
      split; [ intros Hg; apply Hdown; [ reflexivity | exact (H2 Hg) ] | ].
      destruct H3 as [H3 | H3];
        [ left | right ]; (apply Hdown; [ reflexivity | exact H3 ]).
  - intros Hnl. pose proof (loop_transition_aux env n m CHARGING Hs Hne) as Ht.
    destruct (state (mach (loop env n m))); try discriminate Ht;
      [ contradiction | reflexivity ].
Qed.

Lemma charging_launch_condition_witness :
  state (mach (loop env_full 0%nat (bench_machine CHARGING))) = LAUNCHING.
Proof.
  refine (proj2 (proj1 (charging_launch_condition env_full 0%nat
                          (bench_machine CHARGING) eq_refl)) _).
  split; [ vm_compute; find_in | ].
  split; [ intros H; discriminate H | left; vm_compute; find_in ].
Defined.

Lemma loopSense_no_timeToCut env :
  emits (fun e => is_timeToCut e = false) (loopSense env).
Proof. prog_auto. Qed.

Lemma dispatch_no_timeToCut env s :
  has_RTC__CLOCK (defs env) = false ->
  emits (fun e => is_timeToCut e = false) (dispatch env s).
Proof.
  intros H. destruct s; cbn [dispatch]; try (prog_auto; fail).
  unfold doCharging. rewrite H. prog_auto.
Qed.

(** The clock is consulted only through the macro [__RTC__CLOCK__]: when it
    is not defined, no cycle of [loop], in any state, ever calls
    [Clock.timeToCut()], whether or not [__RTC_CLOCK__] has declared the
    clock. *)
Theorem clock_not_consulted_without_gate (env : Env) (n : nat) (m : Machine) :
  has_RTC__CLOCK (defs env) = false ->
  Forall (fun e => is_timeToCut e = false) (trace (loop env n m)).
Proof.
  intros H.
  destruct (debug_tryEnter env n (state m)) eqn:Hs.
  7: { rewrite (loop_trace_setup_debug env n m Hs). repeat constructor. }
  all: match type of Hs with
       | _ = ?s =>
           assert (Hne : s <> SETUP_DEBUG) by discriminate;
           destruct (loop_phases env n m s Hs Hne) as (Htr & _ & _);
           cbv zeta in Htr; rewrite Htr;
           constructor; [ reflexivity | ];
           apply Forall_app; split; [ apply loopSense_no_timeToCut | ];
           apply Forall_app; split; [ apply dispatch_no_timeToCut; exact H | ];
           eapply Forall_impl; [ | apply loopReport_is_report ];
           intros e He; destruct e; try discriminate He; reflexivity
       end.
Qed.

Lemma clock_not_consulted_without_gate_witness :
  Forall (fun e => is_timeToCut e = false)
    (trace (loop env_clock_closed 0%nat (bench_machine CHARGING))).
Proof.
  exact (clock_not_consulted_without_gate env_clock_closed 0%nat
           (bench_machine CHARGING) eq_refl).
Defined.

(** Every run of [doCharging] starts by stopping the wheels and the cutter
    and then asks for the charging contact.  When it makes the re-dock nudge
    (the only half-second delay of the handler), the nudge is: backward at
    slow speed for half a second, forward at slow speed for two seconds,
    stop, and a clock reading that becomes [lastContact], whether or not the
    contact was made.  Without a nudge and without contact, [lastContact] is
    not written. *)
Theorem charging_redock_nudge (env : Env) (n : nat) (m : Machine) :
  let r := doCharging env n m in
  (exists c rest,
     trace r = EvStop :: EvStopCutter :: EvIsBeingCharged c :: rest) /\
  (In (EvDelay 500) (trace r) ->
   exists pre t post,
     trace r = pre ++ redock_nudge (defs env) t ++ post /\
     lastContact (mach r) = t) /\
  (~ In (EvDelay 500) (trace r) ->
   In (EvIsBeingCharged false) (trace r) ->
   lastContact (mach r) = lastContact m).
Proof.
  cbv zeta. wp_at (doCharging env n m). unfold doCharging. wp_run.
  all: unfold wp; cbn [mach]; split; [ eexists _, _; reflexivity | ].
  all: split.
  all: try (intros H; in_cases H; fail).
  all: try (intros _; eexists _, _, _; split;
            [ unfold redock_nudge; cbn [app]; find_split | reflexivity ]; fail).
  all: try (intros Hn; exfalso; apply Hn; find_in; fail).
  all: try (intros _ H; in_cases H; fail).
  all: intros _ _; reflexivity.
Qed.

Lemma charging_redock_nudge_witness :
  exists pre t post,
    trace (doCharging env_quiet 0%nat machine_lost_contact)
      = pre ++ redock_nudge (defs env_quiet) t ++ post /\
    lastContact (mach (doCharging env_quiet 0%nat machine_lost_contact)) = t.
Proof.
  refine (proj1 (proj2 (charging_redock_nudge env_quiet 0%nat
                          machine_lost_contact)) _).
  vm_compute. find_in.
Defined.

(** ** Safety checks, continued *)

(** [checkIfLifted] never writes a variable of the sketch.  Without the lift
    sensor it makes no call at all.  When the mower is lifted it stops the
    cutter and the wheels, backs up for two seconds and asks again; it flags
    [ERROR_LIFT] exactly when the second answer is still true, and makes a
    random turn in both cases. *)
Theorem checkIfLifted_reaction (env : Env) (n : nat) (m : Machine) :
  let r := checkIfLifted env n m in
  mach r = m /\
  (has_Lift_Sensor (defs env) = false -> trace r = []) /\
  (In (EvIsLifted true) (trace r) ->
   exists again,
     trace r = EvIsLifted true :: lift_reaction (defs env) again) /\
  (~ In (EvIsLifted true) (trace r) ->
   Forall (fun e => is_isLifted e = true) (trace r)).
Proof.
  cbv zeta. wp_at (checkIfLifted env n m). unfold checkIfLifted. wp_run.
  all: unfold wp; cbn [mach trace]; split; [ reflexivity | ].
  all: split; [ first [ reflexivity | intros H; discriminate H ] | ].
  all: split.
  all: try (intros H; in_cases H; fail).
  all: try (intros _; first [ exists true; reflexivity | exists false; reflexivity ]).
  all: try (intros _; repeat constructor; fail).
  all: intros Hn; exfalso; apply Hn; find_in.
Qed.

Lemma checkIfLifted_reaction_witness :
  exists again,
    trace (checkIfLifted env_lifted 0%nat (bench_machine MOWING))
      = EvIsLifted true :: lift_reaction (defs env_lifted) again.
Proof.
  refine (proj1 (proj2 (proj2 (checkIfLifted_reaction env_lifted 0%nat
                                 (bench_machine MOWING)))) _).
  vm_compute. find_in.
Defined.

Lemma dispatch_no_safety_query env s :
  emits (fun e => is_safety_query e = false) (dispatch env s).
Proof. destruct s; prog_auto. Qed.

Lemma loopSense_unchecked env :
  has_motion_sensor (defs env) = false ->
  has_Lift_Sensor (defs env) = false ->
  emits (fun e => is_sensing e = true /\ is_safety_query e = false) (loopSense env).
Proof.
  intros H1 H2. unfold loopSense, checkIfFlipped, checkIfLifted.
  rewrite H1, H2. unfold pollSensor. unfold_calls.
  repeat first
    [ apply emits_bind; [ | intro ]
    | apply emits_ret | apply emits_get | apply emits_modify
    | apply emits_command; split; reflexivity
    | apply emits_query; intro; split; reflexivity
    | match goal with |- emits _ (if ?c then _ else _) => destruct c end ].
Qed.

(** With neither a motion sensor nor a lift sensor configured, the safety
    checks are empty: no cycle of [loop] ever asks for a tilt or a lift, and
    before the handler runs the cycle only polls the debug collaborator, reads
    the clock, takes the snapshot of the boundary sensors, updates the battery
    voltage and, when due, the display. *)
Theorem safety_checks_compiled_out (env : Env) (n : nat) (m : Machine) :
  has_motion_sensor (defs env) = false ->
  has_Lift_Sensor (defs env) = false ->
  Forall (fun e => is_safety_query e = false) (trace (loop env n m)) /\
  Forall (fun e => is_sensing e = true)
    (trace (loopSense env (S n) (set_state (debug_tryEnter env n (state m)) m))).
Proof.
  intros H1 H2. split.
  - destruct (debug_tryEnter env n (state m)) eqn:Hs.
    7: { rewrite (loop_trace_setup_debug env n m Hs). repeat constructor. }
    all: match type of Hs with
         | _ = ?s =>
             assert (Hne : s <> SETUP_DEBUG) by discriminate;
             destruct (loop_phases env n m s Hs Hne) as (Htr & _ & _);
             cbv zeta in Htr; rewrite Htr;
             constructor; [ reflexivity | ];
             apply Forall_app; split;
               [ eapply Forall_impl; [ | apply (loopSense_unchecked env H1 H2) ];
                 intros e He; apply He | ];
             apply Forall_app; split; [ apply dispatch_no_safety_query | ];
             eapply Forall_impl; [ | apply loopReport_is_report ];
             intros e He; destruct e; try discriminate He; reflexivity
         end.
  - eapply Forall_impl; [ | apply (loopSense_unchecked env H1 H2) ].
    intros e He. apply He.
Qed.

Lemma safety_checks_compiled_out_witness :
  Forall (fun e => is_safety_query e = false)
    (trace (loop env_quiet 0%nat (bench_machine MOWING))).
Proof.
  exact (proj1 (safety_checks_compiled_out env_quiet 0%nat (bench_machine MOWING)
                  eq_refl eq_refl)).
Defined.

(** ** The sensing phase *)

Lemma dispatch_keeps_sensorOutside env s : keeps sensorOutside (dispatch env s).
Proof. destruct s; prog_auto. Qed.

Lemma loopSense_snapshot (env : Env) (n : nat) (m : Machine) :
  exists t b0 b1 rest,
    trace (loopSense env n m)
      = EvMillis t :: EvSensorSelect 0 :: EvIsOutOfBounds b0
          :: EvSensorSelect 1 :: EvIsOutOfBounds b1 :: EvUpdateVoltage :: rest /\
    sensorOutside (mach (loopSense env n m)) = mkSensorArray b0 b1 /\
    val (loopSense env n m) = t.
Proof.
  wp_at (loopSense env n m).
  unfold loopSense, pollSensor, checkIfFlipped, checkIfLifted. wp_run.
  all: unfold wp; eexists _, _, _, _; split; [ reflexivity | ].
  all: split; reflexivity.
Qed.

(** In every cycle that reaches the dispatch, the first calls after the debug
    poll are a clock reading, the selection and reading of coil 0, the
    selection and reading of coil 1 and the battery voltage update, and
    [sensorOutside] holds these two readings at the end of the cycle: no
    safety check and no handler writes the snapshot, and each read follows the
    selection of its coil. *)
Theorem loop_snapshot (env : Env) (n : nat) (m : Machine) (s : MowerState) :
  debug_tryEnter env n (state m) = s ->
  s <> SETUP_DEBUG ->
  exists t b0 b1 rest,
    trace (loop env n m)
      = EvTryEnterSetupDebugMode (state m) s :: EvMillis t
          :: EvSensorSelect (coil LEFT) :: EvIsOutOfBounds b0
          :: EvSensorSelect (coil RIGHT) :: EvIsOutOfBounds b1
          :: EvUpdateVoltage :: rest /\
    sensor_get (sensorOutside (mach (loop env n m))) LEFT = b0 /\
    sensor_get (sensorOutside (mach (loop env n m))) RIGHT = b1.
Proof.
  intros Hs Hne.
  destruct (loop_phases env n m s Hs Hne) as (Htr & Hm & _).
  cbv zeta in Htr, Hm.
  destruct (loopSense_snapshot env (S n) (set_state s m))
    as (t & b0 & b1 & rest & Ht & Hso & _).
  exists t, b0, b1. eexists. rewrite Htr, Ht. split; [ reflexivity | ].
  rewrite Hm, dispatch_keeps_sensorOutside, Hso. split; reflexivity.
Qed.

Lemma loop_snapshot_witness :
  exists t b0 b1 rest,
    trace (loop env_outside 0%nat (bench_machine MOWING))
      = EvTryEnterSetupDebugMode MOWING MOWING :: EvMillis t
          :: EvSensorSelect (coil LEFT) :: EvIsOutOfBounds b0
          :: EvSensorSelect (coil RIGHT) :: EvIsOutOfBounds b1
          :: EvUpdateVoltage :: rest /\
    sensor_get (sensorOutside (mach (loop env_outside 0%nat (bench_machine MOWING)))) LEFT = b0 /\
    sensor_get (sensorOutside (mach (loop env_outside 0%nat (bench_machine MOWING)))) RIGHT = b1.
Proof.
  apply (loop_snapshot env_outside 0%nat (bench_machine MOWING) MOWING).
  - reflexivity.
  - discriminate.
Defined.

Lemma loopSense_no_tryEnter env :
  emits (fun e => is_tryEnter e = false) (loopSense env).
Proof. prog_auto. Qed.

Lemma dispatch_no_tryEnter env s :
  emits (fun e => is_tryEnter e = false) (dispatch env s).
Proof. destruct s; prog_auto. Qed.

(** The debug collaborator is polled exactly once in every cycle of [loop]:
    the poll is the first call of the cycle, it is given the state that the
    previous cycle left, and no later call of the cycle polls it again. *)
Theorem debug_polled_once (env : Env) (n : nat) (m : Machine) :
  exists rest,
    trace (loop env n m)
      = EvTryEnterSetupDebugMode (state m) (debug_tryEnter env n (state m))
          :: rest /\
    Forall (fun e => is_tryEnter e = false) rest.
Proof.
  destruct (debug_tryEnter env n (state m)) eqn:Hs.
  7: { rewrite (loop_trace_setup_debug env n m Hs). eexists. split;
       [ reflexivity | constructor ]. }
  all: match type of Hs with
       | _ = ?s =>
           assert (Hne : s <> SETUP_DEBUG) by discriminate;
           destruct (loop_phases env n m s Hs Hne) as (Htr & _ & _);
           cbv zeta in Htr; rewrite Htr;
           eexists; split; [ reflexivity | ];
           apply Forall_app; split; [ apply loopSense_no_tryEnter | ];
           apply Forall_app; split; [ apply dispatch_no_tryEnter | ];
           eapply Forall_impl; [ | apply loopReport_is_report ];
           intros e He; destruct e; try discriminate He; reflexivity
       end.
Qed.

(** ** Mowing: the boundary escape *)

Lemma nonzero_true (z : Z) : nonzero z = true -> z <> 0.
Proof. unfold nonzero. intros H E. subst z. discriminate H. Qed.

Lemma nonzero_false (z : Z) : nonzero z = false -> z = 0.
Proof.
  unfold nonzero. intros H. apply Z.eqb_eq.
  destruct (z =? 0); [ reflexivity | discriminate H ].
Qed.

(** Case analysis of a membership whose element carries a result code. *)
Ltac in_cases_code H :=
  repeat match type of H with
  | In _ (_ :: _) =>
      destruct H as [H | H];
      [ try discriminate H;
        try (injection H as H;
             repeat match goal with
                    | N : nonzero _ = true |- _ => apply nonzero_true in N
                    | N : nonzero _ = false |- _ => apply nonzero_false in N
                    end;
             congruence) | ]
  | In _ [] => destruct H
  end.

(** One round of the boundary escape of [doMowing], for the coil [i]: with
    the coil inside nothing happens.  With the coil outside the round selects
    the coil, stops, reverses until inside, and ends by storing a clock
    reading in [time_at_turning] and setting a new target heading.  In every
    case a failed reverse is flagged and the release turn is still tried; the
    turn goes away from the wire, is tried at most twice, and only non-zero
    codes are flagged. *)
Theorem mowing_boundary_escape (env : Env) (i : ORIENTATION) (n : nat) (m : Machine) :
  let r := mowingSensor env i n m in
  (sensor_get (sensorOutside m) i = false -> r = mkRes tt m n []) /\
  (sensor_get (sensorOutside m) i = true ->
   exists err t rest,
     trace r = escape_start i err ++ rest /\
     (exists mid, rest = mid ++ [EvMillis t; EvSetNewTargetHeading]) /\
     time_at_turning (mach r) = t /\
     (err <> 0 -> In (EvErrorFlag err) rest) /\
     (1 <= List.length (filter is_release_turn rest))%nat) /\
  Forall (fun e => wrong_release i e = false) (trace r) /\
  (List.length (filter is_release_turn (trace r)) <= 2)%nat /\
  ~ In (EvErrorFlag 0) (trace r).
Proof.
  cbv zeta. wp_at (mowingSensor env i n m).
  unfold mowingSensor, turnToRelease. destruct i; wp_run.
  all: repeat match goal with
       | H : negb _ = true |- _ => apply negb_true_iff in H
       | H : negb _ = false |- _ => apply negb_false_iff in H
       end.
  all: unfold wp; cbn [sensor_get]; split;
    [ intros Hi; first [ reflexivity | congruence ] | ].
  all: split.
  all: try (intros Hi; congruence).
  all: try (intros _; eexists _, _, _; split; [ reflexivity | ];
            split; [ find_suffix | ]; split; [ reflexivity | ];
            split; [ intros Hne;
                     first [ solve [ find_in ]
                           | exfalso; apply Hne; apply nonzero_false; assumption ]
                   | cbn; lia ]).
  all: split; [ repeat constructor | ].
  all: split; [ cbn; lia | ].
  all: intros H; in_cases_code H.
Qed.

Lemma mowing_boundary_escape_witness :
  exists err t rest,
    trace (mowingSensor env_stuck LEFT 0%nat machine_left_outside)
      = escape_start LEFT err ++ rest /\
    In (EvErrorFlag 7) rest /\
    time_at_turning (mach (mowingSensor env_stuck LEFT 0%nat machine_left_outside)) = t.
Proof.
  destruct (proj1 (proj2 (mowing_boundary_escape env_stuck LEFT 0%nat
                            machine_left_outside)) eq_refl)
    as (err & t & rest & Htr & _ & Ht & Hflag & _).
  exists err, t, rest. split; [ exact Htr | ]. split; [ | exact Ht ].
  assert (E : err = 7).
  { vm_compute in Htr. injection Htr as E _. symmetry. exact E. }
  subst err. apply Hflag. discriminate.
Defined.

(** ** LookingForBoundary: the search *)

(** A run of [doLookForBWF] with the left coil inside keeps the state, stops
    the cutter first, reads the clock, and ends with the forward ramp and the
    obstacle check.  Between the two it makes a random turn with backing up
    exactly when more than [TURN_INTERVAL] has elapsed since
    [time_at_turning], which then becomes the clock reading taken after the
    turn; otherwise [time_at_turning] is not written and nothing comes in
    between. *)
Theorem lookForBWF_keeps_searching (env : Env) (n : nat) (m : Machine) :
  sensor_get (sensorOutside m) LEFT = false ->
  let r := doLookForBWF env n m in
  state (mach r) = state m /\
  exists t mid,
    trace r = EvStopCutter :: EvMillis t :: mid ++ search_drive (defs env) /\
    (elapsed t (time_at_turning m) <= TURN_INTERVAL (defs env) ->
     mid = [] /\ time_at_turning (mach r) = time_at_turning m) /\
    (TURN_INTERVAL (defs env) < elapsed t (time_at_turning m) ->
     exists a k t',
       mid = random_turn_back (defs env) a k t' /\
       time_at_turning (mach r) = t').
Proof.
  intros Hin. cbn [sensor_get] in Hin. cbv zeta.
  wp_at (doLookForBWF env n m). unfold doLookForBWF, randomTurn. wp_run.
  all: unfold wp; try congruence; gt_norm.
  all: split; [ reflexivity | ].
  all: eexists _, _; split;
    [ unfold search_drive;
      first [ exact (f_equal (fun l => _ :: _ :: l) (eq_sym (app_nil_l _)))
            | match goal with
              | |- ?a :: ?b :: ?l = _ =>
                  change l with (firstn 8 l ++ skipn 8 l); reflexivity
              end ] | ].
  all: split; [ intros Hle; first [ lia | split; reflexivity ] | ].
  all: intros Hlt; try lia.
  all: cbn [firstn].
  all: match goal with
       | |- context [EvRandom 90 160 ?A :: EvRandom 0 100 ?R :: _
                       :: EvMillis ?T :: _] => exists A, R, T
       end.
  all: unfold random_turn_back; rewrite Heqb1; split; reflexivity.
Qed.

Lemma lookForBWF_keeps_searching_witness :
  state (mach (doLookForBWF env_quiet 0%nat (bench_machine LOOKING_FOR_BWF)))
    = LOOKING_FOR_BWF.
Proof.
  exact (proj1 (lookForBWF_keeps_searching env_quiet 0%nat
                  (bench_machine LOOKING_FOR_BWF) eq_refl)).
Defined.

(** ** Docking: how the handler ends *)

(** A run of [doDocking] entered in [DOCKING] stops the cutter first, and
    ends in [CHARGING], in [LOOKING_FOR_BWF] or still in [DOCKING], in one
    of four ways.  It sets [CHARGING] exactly when [isBeingCharged()]
    answered true, and then [stop] is its last call.  It sets
    [LOOKING_FOR_BWF] exactly when it turned left by 30 degrees, after a
    [stop], as its last calls.  Otherwise the state stays [DOCKING] and the
    last calls are either the escape turn's [runForward] or the selection of
    the left coil followed by [adjustMotorSpeeds]. *)
Theorem docking_exits (env : Env) (n : nat) (m : Machine) :
  state m = DOCKING ->
  let r := doDocking env n m in
  (exists rest, trace r = EvStopCutter :: rest) /\
  (state (mach r) = CHARGING \/ state (mach r) = LOOKING_FOR_BWF \/
   state (mach r) = DOCKING) /\
  (state (mach r) = CHARGING <-> In (EvIsBeingCharged true) (trace r)) /\
  (state (mach r) = CHARGING ->
   exists pre, trace r = pre ++ [EvIsBeingCharged true; EvStop]) /\
  (state (mach r) = LOOKING_FOR_BWF <-> In (EvTurnLeft 30) (trace r)) /\
  (state (mach r) = LOOKING_FOR_BWF ->
   exists pre, trace r = pre ++ [EvStop; EvTurnLeft 30]) /\
  (state (mach r) = DOCKING ->
   (exists pre, trace r = pre ++ [EvRunForward (FULLSPEED (defs env))]) \/
   (exists pre, trace r = pre ++ track_wire)).
Proof.
  intros Hs. cbv zeta. wp_at (doDocking env n m).
  unfold doDocking, dockingCollision, dockingTrack. wp_run.
  all: unfold wp; cbn [mach]; rewrite ?Hs.
  all: split; [ eexists; reflexivity | ].
  all: split; [ first [ left; reflexivity | right; left; reflexivity
                      | right; right; reflexivity ] | ].
  all: split; [ split; [ intros H; first [ discriminate H | find_in ]
                       | intros H; first [ reflexivity | in_cases H ] ] | ].
  all: split; [ intros H; first [ discriminate H | find_suffix ] | ].
  all: split; [ split; [ intros H; first [ discriminate H | find_in ]
                       | intros H; first [ reflexivity | in_cases H ] ] | ].
  all: split; [ intros H; first [ discriminate H | find_suffix ] | ].
  all: intros H; try discriminate H.
  all: first [ left; solve [ find_suffix ]
             | right; unfold track_wire; solve [ find_suffix ] ].
Qed.

Lemma docking_exits_witness :
  exists pre,
    trace (doDocking env_charged 0%nat (bench_machine DOCKING))
      = pre ++ [EvIsBeingCharged true; EvStop].
Proof.
  refine (proj1 (proj2 (proj2 (proj2 (docking_exits env_charged 0%nat
                                 (bench_machine DOCKING) eq_refl)))) _).
  vm_compute. reflexivity.
Defined.

(** ** The clock *)

Lemma elapsed_wrap32 (a b : Z) : elapsed (wrap32 a) (wrap32 b) = wrap32 (a - b).
Proof.
  unfold elapsed, wrap32. symmetry. apply Zminus_mod.
Qed.

(** The elapsed-time tests of the sketch subtract a stored clock reading from
    a later one in [unsigned long] arithmetic; the difference is the true
    gap [d] whenever that gap is below 2^32 ms, also when [millis()] has
    rolled over between the two readings. *)
Theorem elapsed_across_rollover (t d : Z) :
  0 <= d < 2 ^ 32 ->
  elapsed (wrap32 (t + d)) (wrap32 t) = d.
Proof.
  intros Hd. rewrite elapsed_wrap32. unfold wrap32.
  replace (t + d - t) with d by lia.
  apply Z.mod_small. exact Hd.
Qed.

Lemma elapsed_across_rollover_witness :
  elapsed (wrap32 (near_rollover + 5000)) (wrap32 near_rollover) = 5000.
Proof.
  apply (elapsed_across_rollover near_rollover 5000). split; [ lia | reflexivity ].
Defined.

(** ** Docking: the boundary-lost timer *)

(** A run of [doDocking] whose snapshot has the left coil outside refreshes
    [lastOutside] with its first clock reading [t0] (call [n+1], right after
    the cutter is stopped): at the end of the run [lastOutside] is [t0],
    unless the run made the escape turn of 70 degrees, which stores the
    reading it takes just before its final [runForward].  If the clock stays
    within ten seconds of [t0] during the run, the run does not declare the
    boundary lost: it never turns left by 30 degrees and does not set
    [LOOKING_FOR_BWF], whatever the previous value of [lastOutside]. *)
Theorem docking_left_outside_not_lost (env : Env) (n : nat) (m : Machine) :
  sensor_get (sensorOutside m) LEFT = true ->
  let r := doDocking env n m in
  let t0 := wrap32 (millis_at env (S n)) in
  (exists rest, trace r = EvStopCutter :: EvMillis t0 :: rest) /\
  (~ In (EvTurnRight 70) (trace r) -> lastOutside (mach r) = t0) /\
  (In (EvTurnRight 70) (trace r) ->
   exists pre,
     trace r = pre ++ [EvMillis (lastOutside (mach r));
                       EvRunForward (FULLSPEED (defs env))]) /\
  ((forall k, (n < k < tick r)%nat ->
      0 <= millis_at env k - millis_at env (S n) <= 10000) ->
   ~ In (EvTurnLeft 30) (trace r) /\
   (state m = DOCKING -> state (mach r) <> LOOKING_FOR_BWF)).
Proof.
  intros Hout. cbn [sensor_get] in Hout. cbv zeta.
  wp_at (doDocking env n m).
  unfold doDocking, dockingCollision, dockingTrack. wp_run.
  all: unfold wp; cbn [mach tick trace]; try congruence; gt_norm.
  all: split; [ eexists; reflexivity | ].
  all: split; [ intros H; first [ reflexivity | exfalso; apply H; find_in ] | ].
  all: split; [ intros H; first [ solve [ find_suffix ] | in_cases H ] | ].
  all: intros Hclock.
  all: try match goal with
       | Hc : 10000 < elapsed (wrap32 (millis_at _ ?K))
                        (wrap32 (millis_at _ (S _))) |- _ =>
           exfalso; rewrite elapsed_wrap32 in Hc; unfold wrap32 in Hc;
           change (2 ^ 32) with 4294967296 in Hc;
           specialize (Hclock K ltac:(lia));
           rewrite Z.mod_small in Hc by lia; lia
       end.
  all: split; [ intros H; in_cases H | intros Hs; rewrite ?Hs; discriminate ].
Qed.

Lemma docking_left_outside_not_lost_witness :
  ~ In (EvTurnLeft 30) (trace (doDocking env_quiet 0%nat machine_docking_outside)).
Proof.
  refine (proj1 (proj2 (proj2 (proj2 (docking_left_outside_not_lost env_quiet 0%nat
                   machine_docking_outside eq_refl))) _)).
  intros k Hk. cbn [millis_at env_quiet bench_env].
  assert (Ht : tick (doDocking env_quiet 0%nat machine_docking_outside) = 9%nat)
    by (vm_compute; reflexivity).
  rewrite Ht in Hk. lia.
Defined.

(** ** Docking: three collisions in a row *)

Lemma dockingTrack_tick (env : Env) (n : nat) (m : Machine) :
  (n <= tick (dockingTrack env n m))%nat.
Proof.
  wp_at (dockingTrack env n m). unfold dockingTrack. wp_run.
  all: unfold wp; cbn [tick]; lia.
Qed.

Lemma loopSense_tick (env : Env) (n : nat) (m : Machine) :
  (n <= tick (loopSense env n m))%nat.
Proof.
  wp_at (loopSense env n m).
  unfold loopSense, pollSensor, checkIfFlipped, checkIfLifted. wp_run.
  all: unfold wp; cbn [tick]; lia.
Qed.

Lemma loopSense_no_overload_query env :
  emits (fun e => is_wheelsAreOverloaded e = false) (loopSense env).
Proof. prog_auto. Qed.

(** The collision block of one run of [doDocking] without charging contact:
    the counter after the run and the time of the collision it stores. *)
Lemma doDocking_collision_step (env : Env) (n : nat) (m : Machine) :
  In (EvWheelsAreOverloaded true) (trace (doDocking env n m)) ->
  ~ In (EvIsBeingCharged true) (trace (doDocking env n m)) ->
  exists k1 k2,
    (n < k1 < k2)%nat /\ (k2 < tick (doDocking env n m))%nat /\
    let c := int_incr (int_width env)
               (if elapsed (wrap32 (millis_at env k1)) (lastCollision m) >? 10000
                then 0 else collisionCount m) in
    (c = 3 ->
     In (EvTurnRight 70) (trace (doDocking env n m)) /\
     collisionCount (mach (doDocking env n m)) = 0) /\
    (c <> 3 ->
     ~ In (EvTurnRight 70) (trace (doDocking env n m)) /\
     collisionCount (mach (doDocking env n m)) = c /\
     lastCollision (mach (doDocking env n m)) = wrap32 (millis_at env k2)).
Proof.
  wp_at (doDocking env n m). unfold doDocking, dockingCollision. wp_run.
  all: unfold wp; cbn [mach tick]; intros H Hn.
  all: try (exfalso; not_in_docking H; fail).
  all: try (exfalso; apply Hn; find_in; fail).
  all: clear H Hn.
  all: match goal with
       | Hc : (elapsed (wrap32 (millis_at _ ?K)) (lastCollision _) >? 10000) = _
         |- _ => exists K, (S K); rewrite Hc
       end.
  all: apply Z.eqb_eq in Heqb4 || apply Z.eqb_neq in Heqb4.
  all: split; [ lia | ].
  all: split;
    [ first [ lia
            | match goal with
              | |- context [dockingTrack ?e ?k ?m'] =>
                  pose proof (dockingTrack_tick e k m'); lia
              end ] | ].
  all: cbv zeta; split; intros Hc; try contradiction.
  all: try (split; [ find_in | reflexivity ]; fail).
  all: split; [ intros Hx; not_in_docking Hx | ].
  all: rewrite dockingTrack_keeps_collisionCount, dockingTrack_keeps_lastCollision.
  all: split; reflexivity.
Qed.

Lemma loopReport_tick (env : Env) (lt : Z) (n : nat) (m : Machine) :
  tick (loopReport env lt n m) = S (S (S n)).
Proof. reflexivity. Qed.

Lemma dockingTimers_eq (m m' : Machine) :
  dockingTimers m' = dockingTimers m ->
  collisionCount m' = collisionCount m /\ lastCollision m' = lastCollision m.
Proof. unfold dockingTimers. intros H. injection H as H1 H2 _ _. auto. Qed.

(** The same for a whole cycle dispatched in [DOCKING]. *)
Lemma loop_collision_step (env : Env) (n : nat) (m : Machine) :
  debug_tryEnter env n (state m) = DOCKING ->
  In (EvWheelsAreOverloaded true) (trace (loop env n m)) ->
  ~ In (EvIsBeingCharged true) (trace (loop env n m)) ->
  exists k1 k2,
    (n < k1 < k2)%nat /\ (k2 < tick (loop env n m))%nat /\
    let c := int_incr (int_width env)
               (if elapsed (wrap32 (millis_at env k1)) (lastCollision m) >? 10000
                then 0 else collisionCount m) in
    (c = 3 ->
     In (EvTurnRight 70) (trace (loop env n m)) /\
     collisionCount (mach (loop env n m)) = 0) /\
    (c <> 3 ->
     ~ In (EvTurnRight 70) (trace (loop env n m)) /\
     collisionCount (mach (loop env n m)) = c /\
     lastCollision (mach (loop env n m)) = wrap32 (millis_at env k2)).
Proof.
  intros Hs Hin Hn.
  assert (Hne : DOCKING <> SETUP_DEBUG) by discriminate.
  pose proof (loop_handler_event env n m DOCKING is_wheelsAreOverloaded
                (EvWheelsAreOverloaded true) Hs Hne
                eq_refl eq_refl (loopSense_no_overload_query env) eq_refl Hin) as Hh.
  destruct (loop_phases env n m DOCKING Hs Hne) as (Htr & Hm & Htk).
  cbv zeta in Hh, Htr, Hm, Htk. cbn [dispatch] in Hh, Htr, Hm, Htk.
  rewrite loopReport_tick in Htk.
  pose proof (loopSense_tick env (S n) (set_state DOCKING m)) as Ht0.
  destruct (dockingTimers_eq _ _
              (loopSense_keeps_dockingTimers env (S n) (set_state DOCKING m)))
    as (Hcc & Hlc).
  cbn [collisionCount lastCollision set_state] in Hcc, Hlc.
  set (r0 := loopSense env (S n) (set_state DOCKING m)) in *.
  assert (Hup : forall e, In e (trace (doDocking env (tick r0) (mach r0))) ->
                          In e (trace (loop env n m))).
  { intros e He. rewrite Htr. right.
    apply in_or_app. right. apply in_or_app. left. exact He. }
  assert (Hn' : ~ In (EvIsBeingCharged true)
                    (trace (doDocking env (tick r0) (mach r0)))).
  { intros Hx. apply Hn. apply Hup. exact Hx. }
  destruct (doDocking_collision_step env (tick r0) (mach r0) Hh Hn')
    as (k1 & k2 & Hk & Hk2 & Hc).
  cbv zeta in Hc. rewrite Hcc, Hlc in Hc. destruct Hc as (Hc3 & Hcn).
  exists k1, k2. split; [ lia | ]. split; [ lia | ].
  cbv zeta. rewrite Hm. split.
  - intros Hc. destruct (Hc3 Hc) as (H1 & H2). split; [ apply Hup; exact H1 | exact H2 ].
  - intros Hc. destruct (Hcn Hc) as (H1 & H2 & H3).
    split; [ | split; assumption ].
    intros Hx.
    pose proof (loop_handler_event env n m DOCKING is_escape_turn
                  (EvTurnRight 70) Hs Hne
                  eq_refl eq_refl (loopSense_no_escape_turn env) eq_refl Hx) as Hy.
    cbv zeta in Hy. cbn [dispatch] in Hy. exact (H1 Hy).
Qed.

(** Three docking cycles in a row that each hit an obstacle without reaching
    the charger, starting with the counter at 0 and lasting at most ten
    seconds on a clock that does not run backwards: the first two cycles only
    nudge back, the third one makes the escape turn and leaves the counter at
    0 again. *)
Theorem three_collisions_escape (env : Env) (n : nat) (m : Machine) :
  let r1 := loop env n m in
  let r2 := loop env (tick r1) (mach r1) in
  let r3 := loop env (tick r2) (mach r2) in
  collisionCount m = 0 ->
  debug_tryEnter env n (state m) = DOCKING ->
  debug_tryEnter env (tick r1) (state (mach r1)) = DOCKING ->
  debug_tryEnter env (tick r2) (state (mach r2)) = DOCKING ->
  (forall r, In r [r1; r2; r3] ->
     In (EvWheelsAreOverloaded true) (trace r) /\
     ~ In (EvIsBeingCharged true) (trace r)) ->
  (forall k k', (n <= k <= k')%nat -> (k' < tick r3)%nat ->
     0 <= millis_at env k' - millis_at env k <= 10000) ->
  ~ In (EvTurnRight 70) (trace r1) /\
  ~ In (EvTurnRight 70) (trace r2) /\
  In (EvTurnRight 70) (trace r3) /\
  collisionCount (mach r3) = 0.
Proof.
  intros r1 r2 r3 Hc0 Hs1 Hs2 Hs3 Hcol Hclock.
  destruct (Hcol r1 (or_introl eq_refl)) as (Ho1 & Hn1).
  destruct (Hcol r2 (or_intror (or_introl eq_refl))) as (Ho2 & Hn2).
  destruct (Hcol r3 (or_intror (or_intror (or_introl eq_refl)))) as (Ho3 & Hn3).
  destruct (loop_collision_step env n m Hs1 Ho1 Hn1)
    as (a1 & b1 & Ha1 & Hb1 & _ & Hstep1).
  destruct (loop_collision_step env (tick r1) (mach r1) Hs2 Ho2 Hn2)
    as (a2 & b2 & Ha2 & Hb2 & _ & Hstep2).
  destruct (loop_collision_step env (tick r2) (mach r2) Hs3 Ho3 Hn3)
    as (a3 & b3 & Ha3 & Hb3 & Hstep3 & _).
  fold r1 in Hb1, Hstep1. fold r2 in Hb2, Hstep2. fold r3 in Hb3, Hstep3.
  assert (Hgap : forall k k', (n <= k <= k')%nat -> (k' < tick r3)%nat ->
            (elapsed (wrap32 (millis_at env k')) (wrap32 (millis_at env k))
               >? 10000) = false).
  { intros k k' Hk Hk'. specialize (Hclock k k' Hk Hk').
    rewrite elapsed_wrap32. unfold wrap32.
    change (2 ^ 32) with 4294967296.
    rewrite Z.mod_small by lia.
    rewrite Z.gtb_ltb. apply Z.ltb_ge. lia. }
  (* first collision: the counter becomes 1 *)
  rewrite Hc0 in Hstep1.
  assert (E1 : int_incr (int_width env)
                 (if elapsed (wrap32 (millis_at env a1)) (lastCollision m) >? 10000
                  then 0 else 0) = 1)
    by (destruct (_ >? _); apply int_incr_0).
  rewrite E1 in Hstep1.
  destruct (Hstep1 ltac:(lia)) as (Hno1 & Hc1 & Hl1).
  (* second collision: within ten seconds of the first, the counter becomes 2 *)
  rewrite Hc1, Hl1, (Hgap b1 a2 ltac:(lia) ltac:(lia)) in Hstep2.
  rewrite int_incr_below in Hstep2 by lia.
  destruct (Hstep2 ltac:(lia)) as (Hno2 & Hc2 & Hl2).
  (* third collision: the counter reaches 3 *)
  rewrite Hc2, Hl2, (Hgap b2 a3 ltac:(lia) ltac:(lia)) in Hstep3.
  rewrite int_incr_below in Hstep3 by lia.
  destruct (Hstep3 ltac:(lia)) as (Hyes3 & Hc3).
  repeat split; assumption.
Qed.

Lemma three_collisions_escape_witness :
  let r1 := loop env_docking_collisions 0%nat (bench_machine DOCKING) in
  let r2 := loop env_docking_collisions (tick r1) (mach r1) in
  let r3 := loop env_docking_collisions (tick r2) (mach r2) in
  ~ In (EvTurnRight 70) (trace r1) /\
  ~ In (EvTurnRight 70) (trace r2) /\
  In (EvTurnRight 70) (trace r3) /\
  collisionCount (mach r3) = 0.
Proof.
  apply (three_collisions_escape env_docking_collisions 0%nat (bench_machine DOCKING)).
  - reflexivity.
  - reflexivity.
  - vm_compute. reflexivity.
  - vm_compute. reflexivity.
  - intros r [<- | [<- | [<- | []]]]; split.
    all: try (vm_compute; find_in).
    all: vm_compute; intros H;
      repeat (destruct H as [H | H]; [ discriminate H | ]); exact H.
  - intros k k' Hk Hk'.
    assert (Ht : (tick (loop env_docking_collisions
                    (tick (loop env_docking_collisions
                       (tick (loop env_docking_collisions 0%nat (bench_machine DOCKING)))
                       (mach (loop env_docking_collisions 0%nat (bench_machine DOCKING)))))
                    (mach (loop env_docking_collisions
                       (tick (loop env_docking_collisions 0%nat (bench_machine DOCKING)))
                       (mach (loop env_docking_collisions 0%nat (bench_machine DOCKING))))))
                  <= 1000)%nat)
      by (apply Nat.leb_le; vm_compute; reflexivity).
    cbn [millis_at env_docking_collisions bench_env]. lia.
Defined.

(** ** The display and the cutter, cycle by cycle *)

Lemma dispatch_keeps_lastDisplayUpdate env s : keeps lastDisplayUpdate (dispatch env s).
Proof. destruct s; prog_auto. Qed.

Lemma dispatch_no_displayUpdate env s :
  emits (fun e => is_displayUpdate e = false) (dispatch env s).
Proof. destruct s; prog_auto. Qed.

Lemma loopSense_display (env : Env) (n : nat) (m : Machine) :
  let r := loopSense env n m in
  exists pre t post,
    trace r = pre ++ EvUpdateVoltage :: EvMillis t :: post /\
    Forall (fun e => is_displayUpdate e = false) pre /\
    ((elapsed t (lastDisplayUpdate m) <= 5000 /\
      Forall (fun e => is_displayUpdate e = false) post /\
      lastDisplayUpdate (mach r) = lastDisplayUpdate m) \/
     (5000 < elapsed t (lastDisplayUpdate m) /\
      exists t' post',
        post = EvDisplayUpdate :: EvMillis t' :: post' /\
        Forall (fun e => is_displayUpdate e = false) post' /\
        lastDisplayUpdate (mach r) = t')).
Proof.
  cbv zeta. wp_at (loopSense env n m).
  unfold loopSense, pollSensor, checkIfFlipped, checkIfLifted. wp_run.
  all: unfold wp; gt_norm.
  all: eexists _, _, _; split; [ find_split | ].
  all: split; [ repeat constructor | ].
  all: first
    [ left; split; [ lia | ]; split; [ repeat constructor | reflexivity ]
    | right; split; [ lia | ]; eexists _, _; split; [ reflexivity | ];
      split; [ repeat constructor | reflexivity ] ].
Qed.

(** In a cycle that reaches the dispatch the display is updated at most once,
    right after the clock reading that follows the battery voltage update,
    and exactly when more than five seconds have elapsed since
    [lastDisplayUpdate]; the next clock reading then becomes
    [lastDisplayUpdate].  Otherwise [lastDisplayUpdate] is not written: no
    safety check and no handler touches the display timer. *)
Theorem display_update_cadence (env : Env) (n : nat) (m : Machine) (s : MowerState) :
  debug_tryEnter env n (state m) = s ->
  s <> SETUP_DEBUG ->
  let r := loop env n m in
  exists pre t post,
    trace r = pre ++ EvUpdateVoltage :: EvMillis t :: post /\
    Forall (fun e => is_displayUpdate e = false) pre /\
    ((elapsed t (lastDisplayUpdate m) <= 5000 /\
      Forall (fun e => is_displayUpdate e = false) post /\
      lastDisplayUpdate (mach r) = lastDisplayUpdate m) \/
     (5000 < elapsed t (lastDisplayUpdate m) /\
      exists t' post',
        post = EvDisplayUpdate :: EvMillis t' :: post' /\
        Forall (fun e => is_displayUpdate e = false) post' /\
        lastDisplayUpdate (mach r) = t')).
Proof.
  intros Hs Hne r.
  destruct (loop_phases env n m s Hs Hne) as (Htr & Hm & _).
  cbv zeta in Htr, Hm. fold r in Htr, Hm.
  destruct (loopSense_display env (S n) (set_state s m))
    as (pre & t & post & Hp & Hpre & Hcase).
  cbn [lastDisplayUpdate set_state] in Hcase.
  set (r0 := loopSense env (S n) (set_state s m)) in *.
  set (r1 := dispatch env s (tick r0) (mach r0)) in *.
  set (r2 := loopReport env (val r0) (tick r1) (mach r1)) in *.
  assert (Htail : Forall (fun e => is_displayUpdate e = false)
                    (trace r1 ++ trace r2)).
  { apply Forall_app. split; [ apply dispatch_no_displayUpdate | ].
    eapply Forall_impl; [ | apply loopReport_is_report ].
    intros e He. destruct e; try discriminate He; reflexivity. }
  assert (Hld : lastDisplayUpdate (mach r) = lastDisplayUpdate (mach r0)).
  { rewrite Hm. apply dispatch_keeps_lastDisplayUpdate. }
  exists (EvTryEnterSetupDebugMode (state m) s :: pre), t,
         (post ++ trace r1 ++ trace r2).
  split; [ | split ].
  - rewrite Htr, Hp. cbn [app]. rewrite <- !app_assoc. reflexivity.
  - constructor; [ reflexivity | exact Hpre ].
  - rewrite Hld. destruct Hcase as [(Hle & Hpost & Hl) | (Hlt & t' & post' & Hpost & Hp' & Hl)].
    + left. split; [ exact Hle | ]. split; [ | exact Hl ].
      apply Forall_app. split; assumption.
    + right. split; [ exact Hlt | ].
      exists t', (post' ++ trace r1 ++ trace r2). split; [ | split ].
      * rewrite Hpost. reflexivity.
      * apply Forall_app. split; assumption.
      * exact Hl.
Qed.

Lemma display_update_cadence_witness :
  exists pre t post,
    trace (loop env_quiet 0%nat (bench_machine MOWING))
      = pre ++ EvUpdateVoltage :: EvMillis t :: post.
Proof.
  destruct (display_update_cadence env_quiet 0%nat (bench_machine MOWING) MOWING)
    as (pre & t & post & H & _).
  - reflexivity.
  - discriminate.
  - exists pre, t, post. exact H.
Defined.

Lemma dispatch_stops_cutter (env : Env) (n : nat) (m : Machine) (s : MowerState) :
  s = DOCKING \/ s = LOOKING_FOR_BWF \/ s = CHARGING ->
  In EvStopCutter (trace (dispatch env s n m)).
Proof.
  intros [-> | [-> | ->]]; cbn [dispatch].
  - left. reflexivity.
  - left. reflexivity.
  - right. left. reflexivity.
Qed.

(** Every cycle dispatched in [DOCKING], [LOOKING_FOR_BWF] or [CHARGING]
    commands the cutter off and never commands it on, whatever the sensors
    and the battery answer. *)
Theorem cutter_off_outside_mowing (env : Env) (n : nat) (m : Machine) (s : MowerState) :
  debug_tryEnter env n (state m) = s ->
  s = DOCKING \/ s = LOOKING_FOR_BWF \/ s = CHARGING ->
  In EvStopCutter (trace (loop env n m)) /\
  ~ In EvStartCutter (trace (loop env n m)).
Proof.
  intros Hs Hcase.
  assert (Hne : s <> SETUP_DEBUG) by (destruct Hcase as [-> | [-> | ->]]; discriminate).
  assert (Hnm : s <> MOWING) by (destruct Hcase as [-> | [-> | ->]]; discriminate).
  destruct (loop_phases env n m s Hs Hne) as (Htr & _ & _).
  cbv zeta in Htr. split.
  - rewrite Htr. right. apply in_or_app. right. apply in_or_app. left.
    apply dispatch_stops_cutter. exact Hcase.
  - intros Hx.
    pose proof (loop_handler_event env n m s is_startCutter EvStartCutter
                  Hs Hne eq_refl eq_refl (loopSense_no_startCutter env)
                  eq_refl Hx) as Hh.
    cbv zeta in Hh. revert Hh.
    apply (Forall_false_not_In is_startCutter);
      [ apply dispatch_no_startCutter; exact Hnm | reflexivity ].
Qed.

Lemma cutter_off_outside_mowing_witness :
  In EvStopCutter (trace (loop env_quiet 0%nat (bench_machine CHARGING))).
Proof.
  refine (proj1 (cutter_off_outside_mowing env_quiet 0%nat
                   (bench_machine CHARGING) CHARGING eq_refl _)).
  right. right. reflexivity.
Defined.
